(* ===== verification/_CoqProject ===== *)
-Q . S2P
Prelude.v
PyStr.v
PyRound.v
PyValue.v
Backend.v
Transcriber.v
Schemas.v
Service.v
ServiceSpec.v
Concurrency.v
Routing.v
TestApi.v
