(* ===== verification/Prelude.v ===== *)
(** * A verification development of the Whisper transcription service

    The repository is a small FastAPI service (src/app) that accepts an
    uploaded audio file, normalises it with pydub to a 16 kHz mono WAV
    file in the temporary directory, hands that file to a pretrained
    Whisper model and returns the transcript as JSON.  Its parts:

    - [src/app/transcribe.py]: class [Transcriber] ([__init__] loads the
      model and sets [ready]; [_ensure_wav] decodes the upload and writes
      the temporary WAV file; [transcribe_bytes] runs the model inside
      [try/except/finally], shapes the response dictionary and unlinks the
      temporary file); exception class [TranscriptionError].
    - [src/app/main.py]: the process-wide global [_transcriber], the
      configuration [MODEL_NAME] read from the environment, the startup
      hook [startup_event], and the handlers [health] (GET /health) and
      [transcribe] (POST /transcribe) with their mapping of exceptions to
      HTTP status codes 503 / 400 / 500.
    - [src/app/schemas.py]: the pydantic response schema
      [TranscriptionResponse] / [Segment].
    - [src/tests/test_api.py]: two API tests through a [TestClient].

    The development (library root of the files below):

    - [Prelude] (this file): the Python execution model shared by every
      component: [outcome] (normal return or raised exception), the
      state-and-exception monad [PyM] with [try/except] ([ptry]) and
      [try/finally] ([pfinally]), its notations in [py_scope], the
      invariant-preservation judgement [preserves] and the frame
      judgement [commutes] (a computation commutes with a change of
      state) with their hint database [pym], the tactic [pym_run] that
      executes a monadic program, and generic lemmas on [mapM] and
      [find].
    - [PyStr]: Python's [str.strip] over Latin-1 strings, with its
      specification [stripped_of] (the whitespace around the string
      removed, nothing else).
    - [PyRound]: Python's [round(x, 3)] on floats, modelled on the exact
      rational value of the float with round-half-even; its
      characterisation and monotonicity.
    - [PyValue]: the Python values the code manipulates ([pyval]), the
      exceptions it can observe ([pyexc]), and the builtins it calls:
      [dict.get], truthiness and [or], iteration, [round], [str.strip],
      and [json.dumps(allow_nan=False)] as used by Starlette's
      [JSONResponse].
    - [Backend]: the interface [Backend] (a [Class] with laws) to the
      libraries the service only calls: whisper ([load_model],
      [model.transcribe]) and pydub ([AudioSegment.from_file],
      [set_channels], [set_frame_rate], [export]); the [World] the
      service runs in (the file system as a [gmap] from paths to bytes,
      the position in tempfile's random name sequence, the log); the
      library operations on the world that the code calls
      ([NamedTemporaryFile] with its retry loop, [os.unlink], logging);
      the judgement [log_frame] (a computation neither reads nor rewrites
      earlier log records) proved for each of them; and a concrete
      instance [ToyBackend] used by the witnesses.
    - [Transcriber]: [transcribe.py], one definition per method.
    - [Schemas]: [schemas.py]: [Segment] and [TranscriptionResponse] as
      records, the validator pydantic derives from their annotations,
      [model_dump], and FastAPI's [response_model] serialisation.
    - [Service]: [main.py]: the global state, [startup_event], [health],
      [transcribe], the framework's rendering of [HTTPException], the
      event step relation of the process and its reachable states.
    - [ServiceSpec]: the contract of the spec (section 4.3, 6 and 7) as an
      abstract state machine and an error taxonomy ([Spec.failure],
      [Spec.answer]); the refinement theorems relating the service to
      them: its lifecycle to the state machine, and each request,
      classified by its cause ([classify_request]), to the taxonomy's
      answer, with the divergences the code has.
    - [Concurrency]: [transcribe] split at its [await] into two halves,
      the event loop interleaving requests there as a scheduler over
      suspended handlers, and the sequential service as reference.
    - [Routing]: what FastAPI and Starlette do before a handler runs:
      the route table [main.py] builds (its two endpoints and FastAPI's
      documentation routes), Starlette's router with its 405 and
      trailing-slash redirects, the binding of [file: UploadFile =
      File(...)] with its 422, the whole request [serve_raw], and the
      contract of a 200 answer against [Schemas].
    - [TestApi]: [test_api.py] run against the model of the service.

    Theorems, by group (the claims C1-C25 of the manifest): readiness
    and lifecycle (503 before a successful startup, a failed load is
    caught, health reflects readiness, every reachable state keeps the
    [ready]/[MODEL_NAME] invariant, and the process refines the spec's
    NOT_STARTED/READY/FAILED machine); error mapping (undecodable input
    gives 400; model failures give 400 where the spec asks for 500;
    every request, classified by its cause, gets the answer of the
    spec's section 7 taxonomy except inference errors; a 500 never
    leaks detail and is logged; a NaN or infinite timestamp from whisper
    survives rounding and shaping and gives 500); temporary files (the
    file system is restored after every request whose WAV export
    succeeded; a failed export leaks the temporary file; no request
    changes or deletes an existing file); the pipeline (the model reads
    the WAV export of a mono 16 kHz signal; after the WAV is written the
    only exception is [TranscriptionError]); response shaping
    (boundaries are rounded half-even to milliseconds, which keeps
    segments in order; texts are whisper's without the whitespace around
    them); the response schema (the shaped response conforms exactly
    when whisper's language is [None] or a string, and returning it in
    a [JSONResponse] sends what [response_model] would; a 200 answer is
    a valid [TranscriptionResponse] naming the configured model exactly
    then); concurrency (any interleaving at the [await] is serializable
    in completion order up to the order of log records); the HTTP
    interface of [main.py] (only [GET /health] and [POST /transcribe]:
    another method, [HEAD /health] included, answers 405; a form
    without a file answers 422 before the readiness check); the tests
    of [test_api.py] (the transcription test fails on every 200, and
    the module passes only because startup never runs).

    The models of library code ([round], [str.strip], tempfile's retry
    loop, Starlette's router) come with lemmas that characterise them
    ([round_half_even_iff], [strip_spec], [mkstemp_loop_first_free],
    [router_app_by_path]); they are facts of the models, not claims
    about the repository.

    Bounds and fuel: the tempfile retry loop runs with fuel
    [TMP_MAX] = 238328 (Linux [os.TMP_MAX]), the bound of tempfile's own
    [for seq in range(TMP_MAX)] loop, so the fuel is the code's bound
    and not an approximation: the loop is proved equal to the search
    for the first free candidate among [TMP_MAX], and to fail exactly
    when all are taken.  The scheduler of [Concurrency] runs a finite list of events, and
    takes every [await file.read()] to yield (a superset of the
    schedules the event loop can run).  Every other definition is
    structurally recursive.

    Not modelled: the inside of the libraries (audio decoding, the
    neural network, JSON text), which the [Backend] interface abstracts
    by its observable results and laws; partial writes ([export] either
    writes the whole file or, on a full disk, nothing) and failures to
    create the temporary file other than name exhaustion; code points
    above 255 in strings; the multipart parser itself
    (a request body is given already split into fields, or as
    unparsable), the content of the documentation pages, and the
    [Location] header's host part of a redirect;
    the lifespan protocol (startup is taken to finish before the first
    request, as uvicorn does); logging
    configuration (every call to the logger is recorded, whatever its
    level); [MODEL_NAME] is a parameter of the handlers rather than
    read from the environment; floats are their exact rational value, with infinity
    and NaN, and the final conversion of a rounded value back to the
    nearest double is not modelled (its JSON text is the same decimal);
    pydantic's list of validation errors (validation is an [option]). *)

From stdpp Require Import base list list_monad.

Declare Scope py_scope.
Delimit Scope py_scope with py.

(** ** Outcomes and the state-and-exception monad *)

(** The outcome of running a Python block: it returns normally or raises. *)
Inductive outcome (E A : Type) : Type :=
| Normal (a : A)
| Raised (e : E).
Arguments Normal {E A} a.
Arguments Raised {E A} e.

(** Binding on outcomes, for code that has no effect on the world. *)
Definition obind {E A B} (o : outcome E A) (k : A -> outcome E B) : outcome E B :=
  match o with
  | Normal a => k a
  | Raised e => Raised e
  end.

(** [for x in xs: ys.append(f(x))], stopping at the first exception. *)
Fixpoint omap {E A B} (f : A -> outcome E B) (xs : list A) : outcome E (list B) :=
  match xs with
  | [] => Normal []
  | x :: xs' => obind (f x) (fun y => obind (omap f xs') (fun ys => Normal (y :: ys)))
  end.

(** A computation over state [S] that may raise an exception of type [E]. *)
Definition PyM (S E A : Type) : Type := S -> outcome E A * S.

Section Monad.
Context {S E : Type}.

Definition pret {A} (a : A) : PyM S E A := fun s => (Normal a, s).

Definition pbind {A B} (m : PyM S E A) (k : A -> PyM S E B) : PyM S E B :=
  fun s => match m s with
           | (Normal a, s') => k a s'
           | (Raised e, s') => (Raised e, s')
           end.

Definition praise {A} (e : E) : PyM S E A := fun s => (Raised e, s).

Definition plift {A} (o : outcome E A) : PyM S E A := fun s => (o, s).

Definition pget : PyM S E S := fun s => (Normal s, s).

Definition pmodify (f : S -> S) : PyM S E unit := fun s => (Normal tt, f s).

(** [try: m  except: h] *)
Definition ptry {A} (m : PyM S E A) (h : E -> PyM S E A) : PyM S E A :=
  fun s => match m s with
           | (Raised e, s') => h e s'
           | r => r
           end.

(** [try: m  finally: fin]: [fin] runs after [m] on both paths; an
    exception raised by [fin] replaces the outcome of [m]. *)
Definition pfinally {A} (m : PyM S E A) (fin : PyM S E unit) : PyM S E A :=
  fun s => let '(r, s1) := m s in
           match fin s1 with
           | (Normal _, s2) => (r, s2)
           | (Raised e, s2) => (Raised e, s2)
           end.
End Monad.

Notation "'let*' x ':=' m 'in' k" := (pbind m (fun x => k))
  (at level 10, x name, m at level 100, k at level 200) : py_scope.
Notation "m ';;;' k" := (pbind m (fun _ => k))
  (at level 100, right associativity) : py_scope.
Notation "'let?' x ':=' o 'in' k" := (obind o (fun x => k))
  (at level 10, x name, o at level 100, k at level 200) : py_scope.

Open Scope py_scope.

(** Running a state transformer on a state: [lift_state get set m] runs a
    computation on a component of a larger state. *)
Definition lift_state {S T E A} (get : S -> T) (set : T -> S -> S)
    (m : PyM T E A) : PyM S E A :=
  fun s => let '(r, t) := m (get s) in (r, set t s).

(** ** The tactic that executes a monadic program *)

Ltac pym_unfold :=
  cbv beta iota delta [pret pbind praise plift pget pmodify ptry pfinally lift_state
                       obind fst snd] in *.

(** Execute: unfold the combinators, then case on every [match] the
    program stops on, recording the equations. *)
Ltac pym_run :=
  repeat (pym_unfold; try case_match; simplify_eq/=).

(** ** Invariants preserved by a computation *)

Definition preserves {S E A} (P : S -> Prop) (m : PyM S E A) : Prop :=
  forall s, P s -> P (snd (m s)).

Create HintDb pym.

Section Preserves.
Context {S E : Type} (P : S -> Prop).

Lemma preserves_ret {A} (a : A) : preserves (E:=E) P (pret a).
Proof. by intros s. Qed.

Lemma preserves_raise {A} (e : E) : preserves (A:=A) P (praise e).
Proof. by intros s. Qed.

Lemma preserves_lift {A} (o : outcome E A) : preserves P (plift o).
Proof. by intros s. Qed.

Lemma preserves_get : preserves (E:=E) P pget.
Proof. by intros s. Qed.

Lemma preserves_bind {A B} (m : PyM S E A) (k : A -> PyM S E B) :
  preserves P m -> (forall a, preserves P (k a)) -> preserves P (pbind m k).
Proof.
  intros Hm Hk s Hs. unfold pbind.
  specialize (Hm s Hs). destruct (m s) as [[a|e] s']; [by apply Hk | done].
Qed.

Lemma preserves_try {A} (m : PyM S E A) (h : E -> PyM S E A) :
  preserves P m -> (forall e, preserves P (h e)) -> preserves P (ptry m h).
Proof.
  intros Hm Hh s Hs. unfold ptry.
  specialize (Hm s Hs). destruct (m s) as [[a|e] s']; [done | by apply Hh].
Qed.

Lemma preserves_finally {A} (m : PyM S E A) (fin : PyM S E unit) :
  preserves P m -> preserves P fin -> preserves P (pfinally m fin).
Proof.
  intros Hm Hf s Hs. unfold pfinally.
  specialize (Hm s Hs). destruct (m s) as [r s1]. specialize (Hf s1 Hm).
  by destruct (fin s1) as [[]] .
Qed.

Lemma preserves_match_option {A B} (o : option A) (f : A -> PyM S E B) (g : PyM S E B) :
  (forall a, preserves P (f a)) -> preserves P g ->
  preserves P (match o with Some a => f a | None => g end).
Proof. by destruct o. Qed.

Lemma preserves_if {A} (b : bool) (m1 m2 : PyM S E A) :
  preserves P m1 -> preserves P m2 -> preserves P (if b then m1 else m2).
Proof. by destruct b. Qed.
End Preserves.

#[export] Hint Resolve preserves_ret preserves_raise preserves_lift preserves_get
  preserves_bind preserves_try preserves_finally preserves_match_option
  preserves_if : pym.

(** ** Computations that commute with a change of state

    [commutes f m]: running [m] after [f] is running [m], then [f].  The
    outcome of [m] does not depend on what [f] changes, and [m] keeps
    [f]'s change. *)

Definition commutes {S E A} (f : S -> S) (m : PyM S E A) : Prop :=
  forall s, m (f s) = (fst (m s), f (snd (m s))).

Section Commutes.
Context {S E : Type} (f : S -> S).

Lemma commutes_ret {A} (a : A) : commutes (E:=E) f (pret a).
Proof. by intros s. Qed.

Lemma commutes_raise {A} (e : E) : commutes (A:=A) f (praise e).
Proof. by intros s. Qed.

Lemma commutes_lift {A} (o : outcome E A) : commutes f (plift o).
Proof. by intros s. Qed.

Lemma commutes_modify (g : S -> S) :
  (forall s, g (f s) = f (g s)) -> commutes (E:=E) f (pmodify g).
Proof. intros Hg s. unfold pmodify. by rewrite Hg. Qed.

Lemma commutes_bind {A B} (m : PyM S E A) (k : A -> PyM S E B) :
  commutes f m -> (forall a, commutes f (k a)) -> commutes f (pbind m k).
Proof.
  intros Hm Hk s. unfold pbind. rewrite Hm.
  destruct (m s) as [[a|e] s']; [apply Hk | done].
Qed.

Lemma commutes_try {A} (m : PyM S E A) (h : E -> PyM S E A) :
  commutes f m -> (forall e, commutes f (h e)) -> commutes f (ptry m h).
Proof.
  intros Hm Hh s. unfold ptry. rewrite Hm.
  destruct (m s) as [[a|e] s']; [done | apply Hh].
Qed.

Lemma commutes_finally {A} (m : PyM S E A) (fin : PyM S E unit) :
  commutes f m -> commutes f fin -> commutes f (pfinally m fin).
Proof.
  intros Hm Hf s. unfold pfinally. rewrite Hm.
  destruct (m s) as [r s1]; simpl. rewrite Hf. by destruct (fin s1) as [[]].
Qed.

Lemma commutes_match_option {A B} (o : option A) (g : A -> PyM S E B) (h : PyM S E B) :
  (forall a, commutes f (g a)) -> commutes f h ->
  commutes f (match o with Some a => g a | None => h end).
Proof. by destruct o. Qed.

Lemma commutes_if {A} (b : bool) (m1 m2 : PyM S E A) :
  commutes f m1 -> commutes f m2 -> commutes f (if b then m1 else m2).
Proof. by destruct b. Qed.
End Commutes.

#[export] Hint Resolve commutes_ret commutes_raise commutes_lift commutes_bind
  commutes_try commutes_finally commutes_match_option commutes_if : pym.

(** ** Shared facts on outcomes *)

Lemma obind_Normal {E A B} (o : outcome E A) (k : A -> outcome E B) b :
  obind o k = Normal b <-> exists a, o = Normal a /\ k a = Normal b.
Proof. destruct o; simpl; split; [eauto | by intros (? & [= ->] & ?) | done | by intros (? & ? & ?)]. Qed.

(** [omap] succeeds exactly when [f] succeeds on every element, and then
    returns their results in order. *)
Lemma omap_Normal {E A B} (f : A -> outcome E B) xs ys :
  omap f xs = Normal ys <-> Forall2 (fun x y => f x = Normal y) xs ys.
Proof.
  revert ys. induction xs as [|x xs IH]; intros ys; simpl.
  - split; [intros [= <-]; constructor | by inversion 1].
  - rewrite obind_Normal. setoid_rewrite obind_Normal. split.
    + intros (y & Hy & ys' & Hys & [= <-]). constructor; [done | by apply IH].
    + inversion 1; subst. eexists; split; [done|]. eexists; split; [by apply IH | done].
Qed.

(** Decompose a hypothesis [obind o k = Normal b] into its two steps. *)
Ltac obind_inv :=
  repeat match goal with
  | H : obind _ _ = Normal _ |- _ =>
      let Ho := fresh "Ho" in apply obind_Normal in H as (? & Ho & H)
  end.

Lemma omap_length {E A B} (f : A -> outcome E B) xs ys :
  omap f xs = Normal ys -> length ys = length xs.
Proof. rewrite omap_Normal. intros H. symmetry. by eapply Forall2_length. Qed.

(** A partial map [f] with a left inverse [g] on every element of [l]
    maps [l] to a list that [g] maps back to [l]. *)
Lemma mapM_inverse {A B} (f : A -> option B) (g : B -> A) (l : list A) :
  Forall (fun x => exists y, f x = Some y /\ g y = x) l ->
  exists k, mapM f l = Some k /\ g <$> k = l.
Proof.
  induction 1 as [|x l (y & Hy & Hg) _ (k & Hk & Hgk)]; [by exists []|].
  exists (y :: k). simpl. rewrite Hy, Hk. simpl. by rewrite <- Hgk, Hg.
Qed.

(** [find] depends only on the values of its predicate. *)
Lemma find_ext {A} (P Q : A -> bool) (l : list A) :
  (forall x, P x = Q x) -> List.find P l = List.find Q l.
Proof. intros H. induction l as [|x l IH]; simpl; [done|]. by rewrite H, IH. Qed.
