(* ===== verification/PyStr.v ===== *)
(** * Python's [str.strip()]

    [transcribe.py] strips the transcript and every segment text
    ([result.get("text", "").strip()], line 62, and [s.get("text",
    "").strip()], line 68).  Strings are modelled as Latin-1 strings
    ([String.string], one [ascii] per code point 0..255); [is_space] is
    CPython's [Py_UNICODE_ISSPACE] on that range.  The main fact is the
    specification of [strip]: [strip s = t] exactly when [stripped_of s
    t], i.e. [s] is [t] surrounded by whitespace and [t] neither starts
    nor ends with whitespace. *)

From stdpp Require Import base list.
From Stdlib Require Import Ascii String.
From S2P Require Import Prelude.

(** CPython's whitespace test on code points 0..255: [\t \n \v \f \r]
    (9..13), the separators [\x1c]..[\x1f] and space (28..32), NEL (133)
    and NO-BREAK SPACE (160). *)
Definition is_space (c : ascii) : bool :=
  let n := nat_of_ascii c in
  ((9 <=? n) && (n <=? 13)) || ((28 <=? n) && (n <=? 32)) || (n =? 133) || (n =? 160).

(** The left scan of [do_strip]: [while i < len and isspace(s[i]): i++]. *)
Fixpoint lstrip_l (l : list ascii) : list ascii :=
  match l with
  | [] => []
  | c :: l' => if is_space c then lstrip_l l' else l
  end.

(** [do_strip(BOTHSTRIP)]: the right scan is the left scan of the reversed
    remainder. *)
Definition strip_l (l : list ascii) : list ascii := rev (lstrip_l (rev (lstrip_l l))).

(** [str.strip()] *)
Definition strip (s : string) : string :=
  string_of_list_ascii (strip_l (list_ascii_of_string s)).

(** A string that neither starts nor ends with whitespace. *)
Definition trimmed (l : list ascii) : bool :=
  match head l, head (rev l) with
  | Some a, Some b => negb (is_space a) && negb (is_space b)
  | _, _ => true
  end.

Abbreviation spaces := (Forall (fun c => is_space c = true)).

(** [t] is [s] without the whitespace around it: [s] is [t] between two
    runs of whitespace, and [t] neither starts nor ends with whitespace. *)
Definition stripped_of (s t : string) : Prop :=
  exists p q, spaces p /\ spaces q /\
    list_ascii_of_string s = p ++ list_ascii_of_string t ++ q /\
    trimmed (list_ascii_of_string t) = true.

(** ** Lemmas on the left scan *)

Lemma lstrip_l_spaces_app p l : spaces p -> lstrip_l (p ++ l) = lstrip_l l.
Proof. induction 1 as [|c p Hc _ IH]; [done|]. by simpl; rewrite Hc. Qed.

Lemma lstrip_l_nonspace c l : is_space c = false -> lstrip_l (c :: l) = c :: l.
Proof. by simpl; intros ->. Qed.

(** The left scan removes a whitespace prefix and stops at a non-space. *)
Lemma lstrip_l_split l :
  exists p, spaces p /\ l = p ++ lstrip_l l /\
    (lstrip_l l = [] \/ exists c l', lstrip_l l = c :: l' /\ is_space c = false).
Proof.
  induction l as [|c l (p & Hp & Hl & Hr)].
  - exists []. simpl. auto.
  - simpl. destruct (is_space c) eqn:Hc.
    + exists (c :: p). split_and!; [by constructor | by simpl; f_equal | done].
    + exists []. split_and!; [constructor | done | right; eauto].
Qed.

Lemma spaces_rev l : spaces l -> spaces (rev l).
Proof. apply Forall_rev. Qed.

Lemma head_rev_app (l1 l2 : list ascii) c :
  head l2 = Some c -> head (rev (l1 ++ rev l2)) = Some c.
Proof. intros H. rewrite rev_app_distr, rev_involutive. by destruct l2. Qed.

(** ** Specification of [strip] *)

(** [strip_l l] is the unique [t] such that [l] is [t] surrounded by
    whitespace and [t] is trimmed. *)
Lemma strip_l_spec l t :
  strip_l l = t <->
  exists p q, spaces p /\ spaces q /\ l = p ++ t ++ q /\ trimmed t = true.
Proof.
  split.
  - intros <-. unfold strip_l.
    destruct (lstrip_l_split l) as (p & Hp & Hl & Hm).
    destruct (lstrip_l_split (rev (lstrip_l l))) as (q & Hq & Hr & Ht).
    exists p, (rev q). split_and!; [done | by apply spaces_rev | |].
    + rewrite Hl at 1. f_equal. rewrite <- rev_app_distr, <- Hr. by rewrite rev_involutive.
    + unfold trimmed. destruct Ht as [-> | (c & r & Hcr & Hc)]; [done|].
      rewrite Hcr, rev_involutive. simpl.
      destruct Hm as [Hm | (d & m & Hdm & Hd)].
      { by rewrite Hm in Hcr. }
      assert (Hm' : lstrip_l l = rev (c :: r) ++ rev q).
      { rewrite <- rev_app_distr, <- Hcr, <- Hr. by rewrite rev_involutive. }
      rewrite Hdm in Hm'. simpl in Hm'.
      destruct (rev r) as [|e r']; simpl in *; injection Hm' as -> _; by rewrite ?Hd, ?Hc.
  - intros (p & q & Hp & Hq & -> & Ht). unfold strip_l.
    rewrite lstrip_l_spaces_app by done.
    destruct t as [|c t].
    + rewrite app_nil_l, <- (app_nil_r q), lstrip_l_spaces_app by done. done.
    + unfold trimmed in Ht.
      destruct (rev (c :: t)) as [|d r] eqn:Er.
      { apply (f_equal List.length) in Er. by rewrite length_rev in Er. }
      simpl in Ht. apply andb_prop in Ht as [Hc Hd]. apply negb_true_iff in Hc, Hd.
      change ((c :: t) ++ q) with (c :: (t ++ q)).
      rewrite lstrip_l_nonspace by done.
      rewrite app_comm_cons, rev_app_distr, Er, lstrip_l_spaces_app by (by apply spaces_rev).
      rewrite lstrip_l_nonspace by done. rewrite <- Er. by rewrite rev_involutive.
Qed.

(** ** [str.strip()] on strings *)

(** [s.strip()] is the string [s] stripped of its surrounding
    whitespace, and the only one. *)
Lemma strip_spec (s t : string) : strip s = t <-> stripped_of s t.
Proof.
  unfold strip, stripped_of. rewrite <- strip_l_spec. split.
  - intros <-. by rewrite list_ascii_of_string_of_list_ascii.
  - intros ->. by rewrite string_of_list_ascii_of_string.
Qed.

Example strip_example :
  strip (" hello world " ++ String "010"%char EmptyString) = "hello world"%string.
Proof. reflexivity. Qed.
