(* ===== verification/PyRound.v ===== *)
(** * Python's [round(x, 3)] on floats

    [transcribe.py] line 68 rounds every segment boundary with
    [round(s.get("start", 0.0), 3)].  CPython's [float.__round__] with
    [ndigits] converts the exact binary value of the float to decimal
    with correct rounding, ties to even ([_Py_dg_dtoa], mode 3).  A
    finite float is modelled by its exact value, a rational [Q], and
    [round_to p x] is [k / p] where [k] is [x * p] rounded half to even;
    [round3] is the case [p = 1000].  The conversion of [k / 1000] back
    to the nearest double is not modelled: its shortest [repr], which is
    what the JSON response carries, is the decimal [k / 1000].

    Lemmas: [round_half_even] is characterised by [rhe_spec] (nearest
    integer, ties to even), hence respects [Qeq] and is monotone; so is
    [round_to], which is what keeps shaped segments in order
    ([Transcriber.shape_result_chronological]). *)

From Stdlib Require Import ZArith QArith Qabs Lia.
From stdpp Require Import base tactics.
From S2P Require Import Prelude.

Local Open Scope Z_scope.

(** The integer nearest to [x], ties to the even neighbour. *)
Definition round_half_even (x : Q) : Z :=
  let n := Qnum x in
  let d := Zpos (Qden x) in
  let q := n / d in
  let r := n mod d in
  match Z.compare (2 * r) d with
  | Lt => q
  | Gt => q + 1
  | Eq => if Z.even q then q else q + 1
  end.

(** [round(x, ndigits)] for a scale [p = 10 ^ ndigits]. *)
Definition round_to (p : positive) (x : Q) : Q :=
  round_half_even (x * (Zpos p # 1)) # p.

(** [round(x, 3)] *)
Definition round3 (x : Q) : Q := round_to 1000 x.

(** The specification of rounding to the nearest integer, ties to even:
    [k - 1/2 <= x <= k + 1/2], and [k] is even when [x] is half-way. *)
Definition rhe_spec (x : Q) (k : Z) : Prop :=
  ((2 * k - 1 # 2) <= x /\ x <= (2 * k + 1 # 2))%Q /\
  ((x == (2 * k + 1 # 2))%Q \/ (x == (2 * k - 1 # 2))%Q -> Z.even k = true).

Create HintDb round.

(** ** The characterisation of [round_half_even] *)

Lemma round_half_even_spec x : rhe_spec x (round_half_even x).
Proof.
  destruct x as [n d]. unfold rhe_spec, round_half_even, Qle, Qeq; simpl.
  pose proof (Z.div_mod n (Zpos d) ltac:(lia)) as Hn.
  pose proof (Z.mod_pos_bound n (Zpos d) ltac:(lia)) as Hr.
  set (q := n / Zpos d) in *. set (r := n mod Zpos d) in *.
  destruct (Z.compare_spec (2 * r) (Zpos d)) as [Hc|Hc|Hc].
  - destruct (Z.even q) eqn:Hq.
    + split; [split; nia | done].
    + split; [split; nia|]. intros [H|H]; [exfalso; nia|].
      rewrite Z.even_add, Hq. reflexivity.
  - split; [split; nia | intros [H|H]; exfalso; nia].
  - split; [split; nia | intros [H|H]; exfalso; nia].
Qed.

Lemma rhe_spec_unique x k1 k2 : rhe_spec x k1 -> rhe_spec x k2 -> k1 = k2.
Proof.
  destruct x as [n d]. unfold rhe_spec, Qle, Qeq; simpl.
  intros [[H1a H1b] H1e] [[H2a H2b] H2e].
  assert (k1 <= k2 + 1 /\ k2 <= k1 + 1) as [Hb1 Hb2] by nia.
  destruct (Z.lt_total k1 k2) as [Hlt|[Heq|Hgt]]; [|done|].
  - assert (k2 = k1 + 1) as -> by lia.
    assert (E1 : Z.even k1 = true) by (apply H1e; left; nia).
    assert (E2 : Z.even (k1 + 1) = true) by (apply H2e; right; nia).
    rewrite Z.even_add, E1 in E2. discriminate.
  - assert (k1 = k2 + 1) as -> by lia.
    assert (E2 : Z.even k2 = true) by (apply H2e; left; nia).
    assert (E1 : Z.even (k2 + 1) = true) by (apply H1e; right; nia).
    rewrite Z.even_add, E2 in E1. discriminate.
Qed.

Lemma rhe_spec_Qeq x y k : (x == y)%Q -> rhe_spec x k -> rhe_spec y k.
Proof. intros Hxy. unfold rhe_spec. by rewrite Hxy. Qed.

(** Rounding depends only on the value, not on its representation. *)
#[export] Instance round_half_even_proper : Proper (Qeq ==> eq) round_half_even.
Proof.
  intros x y Hxy. apply (rhe_spec_unique y).
  - apply (rhe_spec_Qeq x); [done | apply round_half_even_spec].
  - apply round_half_even_spec.
Qed.

(** [round_half_even x] is the integer nearest to [x], and the even one
    of the two nearest when [x] is half-way between them. *)
Lemma round_half_even_iff x k : round_half_even x = k <-> rhe_spec x k.
Proof.
  split; [intros <-; apply round_half_even_spec|].
  intros Hk. apply (rhe_spec_unique x); [apply round_half_even_spec | done].
Qed.

Lemma round_half_even_monotone x y : (x <= y)%Q -> round_half_even x <= round_half_even y.
Proof.
  intros Hxy.
  destruct (Z.le_gt_cases (round_half_even x) (round_half_even y)) as [|Hgt]; [done|].
  exfalso.
  destruct (round_half_even_spec x) as [[Hx _] _].
  destruct (round_half_even_spec y) as [[_ Hy] _].
  assert (Hk : ((2 * round_half_even y + 1 # 2) <= (2 * round_half_even x - 1 # 2))%Q).
  { unfold Qle; simpl. lia. }
  assert (Heq : (x == y)%Q).
  { apply Qle_antisym; [done|]. eapply Qle_trans; [exact Hy|].
    eapply Qle_trans; [exact Hk | exact Hx]. }
  rewrite Heq in Hgt. lia.
Qed.

(** ** Properties of [round(x, ndigits)] *)

Section RoundTo.
Context (p : positive).

Lemma round_to_monotone x y : (x <= y)%Q -> (round_to p x <= round_to p y)%Q.
Proof.
  intros Hxy. unfold round_to, Qle; simpl.
  apply Z.mul_le_mono_pos_r; [lia|]. apply round_half_even_monotone.
  apply Qmult_le_compat_r; [done | unfold Qle; simpl; lia].
Qed.

#[export] Instance round_to_proper : Proper (Qeq ==> eq) (round_to p).
Proof. intros x y Hxy. unfold round_to. by rewrite Hxy. Qed.

End RoundTo.

#[export] Hint Resolve round_to_monotone : round.

Example round3_tie_down : round3 (1 # 2000) = 0 # 1000.
Proof. reflexivity. Qed.

Example round3_tie_up : round3 (3 # 2000) = 2 # 1000.
Proof. reflexivity. Qed.

Example round3_2675 : round3 (2675 # 1000) = 2675 # 1000.
Proof. reflexivity. Qed.
