(* ===== verification/PyValue.v ===== *)
(** * Python values, exceptions and the builtins the service calls

    The whisper result is a Python dictionary of arbitrary values, and
    [transcribe.py] reads it with [dict.get], [or], iteration, [round]
    and [str.strip], each of which raises on a value of the wrong type.
    [pyval] is the universe of Python values these operations see
    (dictionaries keyed by strings, as whisper's and JSON's are);
    [pyexc] is the set of exceptions the code can observe.  Each builtin
    is a function returning an [outcome], raising what CPython raises. *)

From stdpp Require Import base list.
From Stdlib Require Import ZArith QArith String Ascii.
From S2P Require Import Prelude PyStr PyRound.

(** A Python float: a finite value (its exact rational value), an
    infinity, or NaN. *)
Inductive pyfloat : Type :=
| FFin (q : Q)
| FInf (neg : bool)
| FNaN.

#[local] Set Warnings "-register-all".
Inductive pyval : Type :=
| PNone
| PBool (b : bool)
| PInt (z : Z)
| PFloat (f : pyfloat)
| PStr (s : string)
| PList (l : list pyval)
| PDict (kvs : list (string * pyval)).

(** The exceptions the service can observe. *)
Inductive pyexc : Type :=
| TranscriptionError (msg : string)        (** [app.transcribe.TranscriptionError] *)
| HTTPException (status_code : Z) (detail : string)   (** [fastapi.HTTPException] *)
| AttributeError
| TypeError
| ValueError
| OSError (what : string)                  (** [FileExistsError], [FileNotFoundError], [ENOSPC] *)
| LibraryError (origin : string).          (** raised inside whisper, pydub or ffmpeg *)

(** [except TranscriptionError] *)
Definition is_TranscriptionError (e : pyexc) : bool :=
  match e with TranscriptionError _ => true | _ => false end.

(** [str(e)] of the exceptions whose message is shown to a client. *)
Definition exc_str (e : pyexc) : string :=
  match e with
  | TranscriptionError msg => msg
  | HTTPException _ detail => detail
  | _ => ""
  end.

(** ** Builtins *)

(** [bool(v)] *)
Definition truthy (v : pyval) : bool :=
  match v with
  | PNone => false
  | PBool b => b
  | PInt z => negb (Z.eqb z 0)
  | PFloat (FFin q) => negb (Qeq_bool q 0)
  | PFloat _ => true
  | PStr s => negb (String.eqb s "")
  | PList l => match l with [] => false | _ => true end
  | PDict kvs => match kvs with [] => false | _ => true end
  end.

(** [a or b] *)
Definition py_or (a b : pyval) : pyval := if truthy a then a else b.

Fixpoint assoc_lookup (k : string) (kvs : list (string * pyval)) : option pyval :=
  match kvs with
  | [] => None
  | (k', v) :: kvs' => if String.eqb k k' then Some v else assoc_lookup k kvs'
  end.

(** [d.get(k, default)]: only dictionaries have a [get] method. *)
Definition dict_get (d : pyval) (k : string) (dflt : pyval) : outcome pyexc pyval :=
  match d with
  | PDict kvs => Normal (match assoc_lookup k kvs with Some v => v | None => dflt end)
  | _ => Raised AttributeError
  end.

(** [for s in v]: lists yield their items, strings their characters,
    dictionaries their keys; other values are not iterable. *)
Definition py_iter (v : pyval) : outcome pyexc (list pyval) :=
  match v with
  | PList l => Normal l
  | PStr s => Normal (map (fun c => PStr (String c EmptyString)) (list_ascii_of_string s))
  | PDict kvs => Normal (map (fun kv => PStr kv.1) kvs)
  | _ => Raised TypeError
  end.

(** [round(v, 3)]: an [int] (or [bool]) is returned as an [int]
    unchanged; a finite float is rounded half to even at the third
    decimal; infinities and NaN round to themselves; anything else has
    no [__round__]. *)
Definition py_round3 (v : pyval) : outcome pyexc pyval :=
  match v with
  | PInt z => Normal (PInt z)
  | PBool b => Normal (PInt (if b then 1 else 0)%Z)
  | PFloat (FFin q) => Normal (PFloat (FFin (round3 q)))
  | PFloat f => Normal (PFloat f)
  | _ => Raised TypeError
  end.

(** [v.strip()]: only strings have a [strip] method. *)
Definition py_strip (v : pyval) : outcome pyexc pyval :=
  match v with
  | PStr s => Normal (PStr (strip s))
  | _ => Raised AttributeError
  end.

(** [json.dumps(v, allow_nan=False)] succeeds: Starlette's [JSONResponse]
    renders with [allow_nan=False], which raises [ValueError] on an
    infinity or a NaN anywhere in the value. *)
Fixpoint json_ok (v : pyval) : bool :=
  match v with
  | PFloat (FFin _) => true
  | PFloat _ => false
  | PList l => forallb json_ok l
  | PDict kvs => forallb (fun '(_, x) => json_ok x) kvs
  | _ => true
  end.

(** ** Facts shared by the components *)

Lemma dict_get_dict kvs k dflt :
  dict_get (PDict kvs) k dflt = Normal (default dflt (assoc_lookup k kvs)).
Proof. simpl. by destruct (assoc_lookup k kvs). Qed.

Lemma json_ok_dict kvs :
  json_ok (PDict kvs) = true <-> Forall (fun kv => json_ok kv.2 = true) kvs.
Proof.
  simpl. rewrite forallb_forall, List.Forall_forall.
  split; intros H [k x] Hin; apply (H (k, x)), Hin.
Qed.

Lemma json_ok_list l : json_ok (PList l) = true <-> Forall (fun x => json_ok x = true) l.
Proof. simpl. rewrite forallb_forall, List.Forall_forall. done. Qed.
