(* ===== verification/Backend.v ===== *)
(** * The libraries the service calls, and the world it runs in

    [transcribe.py] calls four libraries: whisper ([load_model],
    [model.transcribe]), pydub ([AudioSegment.from_file],
    [set_channels], [set_frame_rate], [export]), [tempfile]
    ([NamedTemporaryFile]) and [os] ([unlink]); both source files log
    through [logging].  None of them is code of the repository.

    - [Backend] is the interface of the opaque parts (the neural network,
      the audio codecs, tempfile's random name sequence) as a [Class]:
      each operation returns [None] where the library raises, and the
      laws state what pydub promises about channel count and frame rate.
      The components are proved against this interface.
    - [World] is the state those libraries act on: the temporary
      directory as a [gmap] from paths to contents, the position in the
      random name sequence, whether the disk is full, and the log.
    - The world operations ([named_temporary_file], [export_wav],
      [whisper_transcribe], [os_unlink], [log]) are the library calls as
      the service sees them, in the [PyM] monad.  [named_temporary_file]
      has tempfile's retry loop ([_mkstemp_inner]) with fuel [TMP_MAX];
      [mkstemp_spec] is its specification, the first free candidate.
    - [log_frame m]: [m] runs the same whatever was logged before it
      and keeps those records; every library call has it, which is what
      makes requests interleaved at an [await] commute ([Concurrency]).
    - [ToyBackend] is a concrete instance on which the witnesses run. *)

From stdpp Require Import base list gmap strings pretty.
From Stdlib Require Import ZArith QArith String Ascii.
From Stdlib.Init Require Import Byte.
From S2P Require Import Prelude PyValue.

(** ** The world *)

Inductive level : Type := DEBUG | INFO | WARNING | ERROR.

Record log_entry : Type := mk_log { log_level : level; log_msg : string }.

#[export] Instance level_eq_dec : EqDecision level.
Proof. solve_decision. Defined.
#[export] Instance log_entry_eq_dec : EqDecision log_entry.
Proof. solve_decision. Defined.

Record World : Type := mkWorld {
  fs : gmap string (list byte);   (** files of the temporary directory *)
  tmp_seq : nat;                  (** position in tempfile's random name sequence *)
  disk_full : bool;               (** writing a file fails with [ENOSPC] *)
  logs : list log_entry           (** log records, oldest first *)
}.

Definition set_fs (f : gmap string (list byte) -> gmap string (list byte)) (w : World) : World :=
  mkWorld (f (fs w)) (tmp_seq w) (disk_full w) (logs w).
Definition set_tmp_seq (n : nat) (w : World) : World :=
  mkWorld (fs w) n (disk_full w) (logs w).
Definition add_log (e : log_entry) (w : World) : World :=
  mkWorld (fs w) (tmp_seq w) (disk_full w) (logs w ++ [e]).

(** The world with the records [pre] logged before its own. *)
Definition prepend_logs (pre : list log_entry) (w : World) : World :=
  mkWorld (fs w) (tmp_seq w) (disk_full w) (pre ++ logs w).

(** Reduce the projections of updated worlds. *)
Ltac world_simpl :=
  cbn [fs tmp_seq disk_full logs set_fs set_tmp_seq add_log prepend_logs fst snd] in *.

(** ** The interface to the opaque libraries *)

Class Backend : Type := {
  Model : Type;
  Audio : Type;
  (** [whisper.load_model(name)]; [None] when it raises *)
  load_model : string -> option Model;
  (** [AudioSegment.from_file(io.BytesIO(data))] *)
  from_file : list byte -> option Audio;
  channels : Audio -> Z;
  frame_rate : Audio -> Z;
  (** [audio.set_channels(n)], [audio.set_frame_rate(r)] *)
  set_channels : Audio -> Z -> option Audio;
  set_frame_rate : Audio -> Z -> option Audio;
  (** the bytes [audio.export(path, format="wav")] writes *)
  wav_encode : Audio -> option (list byte);
  (** [model.transcribe(path, task="transcribe")] on the file's content *)
  model_transcribe : Model -> list byte -> option pyval;
  (** the [n]-th name of [tempfile._RandomNameSequence] *)
  tmp_name : nat -> string;
  set_channels_spec a n a' :
    set_channels a n = Some a' -> channels a' = n /\ frame_rate a' = frame_rate a;
  set_frame_rate_spec a r a' :
    set_frame_rate a r = Some a' -> frame_rate a' = r /\ channels a' = channels a
}.

(** ** Library calls on the world *)

(** [tempfile.TMP_MAX] is [os.TMP_MAX], 238328 on Linux. *)
#[local] Set Warnings "-abstract-large-number".
Definition TMP_MAX : nat := 238328%nat.

Lemma TMP_MAX_pos : (0 < TMP_MAX)%nat.
Proof. apply Nat.ltb_lt. vm_compute. reflexivity. Qed.

Definition tempdir : string := "/tmp".

(** [os.path.join(dir, pre + name + suf)] with tempfile's prefix ["tmp"]. *)
Definition tmp_path (name suffix : string) : string :=
  tempdir ++ "/tmp" ++ name ++ suffix.

Section Calls.
Context `{Backend}.

(** [logger.<level>(msg, ...)] and [logger.exception(...)] (level ERROR). *)
Definition log (lvl : level) (msg : string) : PyM World pyexc unit :=
  pmodify (add_log (mk_log lvl msg)).

(** A library call that raises [LibraryError origin] where it fails. *)
Definition lib_call {A} (origin : string) (o : option A) : PyM World pyexc A :=
  match o with
  | Some a => pret a
  | None => praise (LibraryError origin)
  end.

(** The loop of [tempfile._mkstemp_inner]: try the next random name,
    [continue] on [FileExistsError], at most [fuel] times.  Returns the
    path created and the next position in the name sequence. *)
Fixpoint mkstemp_loop (fuel : nat) (files : gmap string (list byte)) (seq : nat)
    (suffix : string) : option (string * nat) :=
  match fuel with
  | O => None
  | S fuel' =>
      let p := tmp_path (tmp_name seq) suffix in
      match files !! p with
      | Some _ => mkstemp_loop fuel' files (S seq) suffix
      | None => Some (p, S seq)
      end
  end.

(** [tempfile.NamedTemporaryFile(suffix=suffix, delete=False)]: creates
    an empty file with a fresh name ([os.open] with [O_EXCL]); raises
    [FileExistsError] when [TMP_MAX] names are taken. *)
Definition named_temporary_file (suffix : string) : PyM World pyexc string :=
  fun w =>
    match mkstemp_loop TMP_MAX (fs w) (tmp_seq w) suffix with
    | Some (p, seq') => (Normal p, set_tmp_seq seq' (set_fs (insert p []) w))
    | None => (Raised (OSError "FileExistsError"), set_tmp_seq (tmp_seq w + TMP_MAX) w)
    end.

(** [audio.export(path, format="wav")]: encodes, then writes the file. *)
Definition export_wav (a : Audio) (path : string) : PyM World pyexc unit :=
  fun w =>
    match wav_encode a with
    | None => (Raised (LibraryError "pydub.export"), w)
    | Some bytes =>
        if disk_full w then (Raised (OSError "ENOSPC"), w)
        else (Normal tt, set_fs (insert path bytes) w)
    end.

(** [model.transcribe(path)]: whisper reads the file through ffmpeg. *)
Definition whisper_transcribe (m : Model) (path : string) : PyM World pyexc pyval :=
  fun w =>
    match fs w !! path with
    | None => (Raised (LibraryError "ffmpeg"), w)
    | Some bytes => lib_call "whisper" (model_transcribe m bytes) w
    end.

(** [os.unlink(path)] *)
Definition os_unlink (path : string) : PyM World pyexc unit :=
  fun w =>
    match fs w !! path with
    | None => (Raised (OSError "FileNotFoundError"), w)
    | Some _ => (Normal tt, set_fs (delete path) w)
    end.

(** ** Facts on the library calls *)

(** The path the loop returns was free. *)
Lemma mkstemp_loop_fresh fuel files seq suffix p seq' :
  mkstemp_loop fuel files seq suffix = Some (p, seq') -> files !! p = None.
Proof.
  revert seq. induction fuel as [|fuel IH]; intros seq; simpl; [done|].
  case_match; [apply IH | by intros [= <- _]].
Qed.

(** The loop finds a name whenever one of the next [fuel] candidates
    is free. *)
Lemma mkstemp_loop_some (fuel : nat) files seq suffix (i : nat) :
  (i < fuel)%nat -> files !! tmp_path (tmp_name (seq + i)) suffix = None ->
  exists p seq', mkstemp_loop fuel files seq suffix = Some (p, seq').
Proof.
  revert seq i. induction fuel as [|fuel IH]; intros seq i Hi Hfree; [lia|]. simpl.
  case_match eqn:E; [|by eauto].
  destruct i as [|i]; [rewrite Nat.add_0_r in Hfree; congruence|].
  apply (IH (S seq) i); [lia|]. by replace (S seq + i)%nat with (seq + S i)%nat by lia.
Qed.

(** The path the loop tries at attempt [i]. *)
Definition candidate (seq : nat) (suffix : string) (i : nat) : string :=
  tmp_path (tmp_name (seq + i)) suffix.

(** The specification of the loop: the first of the next [fuel]
    candidates that is free, and the position after it. *)
Definition mkstemp_spec (fuel : nat) (files : gmap string (list byte)) (seq : nat)
    (suffix : string) : option (string * nat) :=
  match List.find (fun i => bool_decide (files !! candidate seq suffix i = None)) (List.seq 0 fuel) with
  | Some i => Some (candidate seq suffix i, S (seq + i))
  | None => None
  end.

(** The loop gives up exactly when all [fuel] candidates are taken. *)
Lemma mkstemp_loop_none fuel files seq suffix :
  mkstemp_loop fuel files seq suffix = None <->
  forall i, (i < fuel)%nat -> is_Some (files !! candidate seq suffix i).
Proof.
  split.
  - intros Hn i Hi. destruct (files !! candidate seq suffix i) eqn:E; [by eexists|].
    destruct (mkstemp_loop_some fuel files seq suffix i Hi E) as (? & ? & Hs). congruence.
  - revert seq. induction fuel as [|fuel IH]; intros seq Hall; [done|]. simpl.
    destruct (Hall 0%nat ltac:(lia)) as [x Hx]. unfold candidate in Hx.
    rewrite Nat.add_0_r in Hx. rewrite Hx. apply IH.
    intros i Hi. unfold candidate. replace (S seq + i)%nat with (seq + S i)%nat by lia.
    apply Hall. lia.
Qed.

Lemma find_seq_shift (P : nat -> bool) (n : nat) :
  List.find P (List.seq 1 n) = S <$> List.find (fun i => P (S i)) (List.seq 0 n).
Proof.
  rewrite <- seq_shift. induction (List.seq 0 n) as [|x l IH]; [done|]. simpl.
  destruct (P (S x)); [done | apply IH].
Qed.

(** ** The library calls do not read the log

    [log_frame m]: [m] runs the same on a world with more records
    logged before, and keeps them. *)
Definition log_frame {A} (m : PyM World pyexc A) : Prop :=
  forall pre, commutes (prepend_logs pre) m.

Lemma log_frame_log lvl msg : log_frame (log lvl msg).
Proof.
  intros pre. apply commutes_modify. intros w. unfold add_log, prepend_logs; simpl.
  by rewrite app_assoc.
Qed.

Lemma log_frame_lib_call {A} origin (o : option A) : log_frame (lib_call origin o).
Proof. intros pre. destruct o; simpl; auto with pym. Qed.

Lemma log_frame_named_temporary_file suffix : log_frame (named_temporary_file suffix).
Proof.
  intros pre w. unfold named_temporary_file. cbn [prepend_logs fs tmp_seq].
  by destruct (mkstemp_loop TMP_MAX (fs w) (tmp_seq w) suffix) as [[p s]|].
Qed.

Lemma log_frame_export_wav a path : log_frame (export_wav a path).
Proof. intros pre w. unfold export_wav. simpl. by repeat case_match. Qed.

Lemma log_frame_whisper_transcribe m path : log_frame (whisper_transcribe m path).
Proof.
  intros pre w. unfold whisper_transcribe. simpl.
  case_match; [|done]. by apply log_frame_lib_call.
Qed.

Lemma log_frame_os_unlink path : log_frame (os_unlink path).
Proof. intros pre w. unfold os_unlink. simpl. by case_match. Qed.

(** The retry loop of [tempfile] returns the first free name among
    its next [fuel] candidates, and the sequence position after it: it
    is the search [mkstemp_spec]. *)
Lemma mkstemp_loop_first_free fuel files seq suffix :
  mkstemp_loop fuel files seq suffix = mkstemp_spec fuel files seq suffix.
Proof.
  unfold mkstemp_spec. revert seq. induction fuel as [|fuel IH]; intros seq; [done|].
  cbn [mkstemp_loop List.seq List.find].
  assert (E0 : candidate seq suffix 0 = tmp_path (tmp_name seq) suffix)
    by (unfold candidate; by rewrite Nat.add_0_r).
  rewrite E0. destruct (files !! tmp_path (tmp_name seq) suffix) eqn:E.
  - rewrite bool_decide_false by done. rewrite find_seq_shift, IH.
    rewrite (find_ext (fun i => bool_decide (files !! candidate seq suffix (S i) = None))
                      (fun i => bool_decide (files !! candidate (S seq) suffix i = None)))
      by (intros i; unfold candidate; by rewrite Nat.add_succ_r).
    destruct (List.find _ _) as [i|]; simpl; [|done].
    unfold candidate. by rewrite Nat.add_succ_r.
  - rewrite bool_decide_true by done. by rewrite E0, Nat.add_0_r.
Qed.

(** [NamedTemporaryFile] raises [FileExistsError] exactly when all
    [TMP_MAX] candidate names are taken; it then creates no file and
    has advanced the name sequence by [TMP_MAX]. *)
Lemma named_temporary_file_exhausted suffix w :
  named_temporary_file suffix w =
    (Raised (OSError "FileExistsError"), set_tmp_seq (tmp_seq w + TMP_MAX) w) <->
  forall i, (i < TMP_MAX)%nat -> is_Some (fs w !! candidate (tmp_seq w) suffix i).
Proof.
  rewrite <- mkstemp_loop_none. unfold named_temporary_file.
  destruct (mkstemp_loop TMP_MAX (fs w) (tmp_seq w) suffix) as [[p s]|]; [|done].
  split; discriminate.
Qed.

(** [NamedTemporaryFile] creates a file whose name was free, and it
    succeeds whenever one of tempfile's next [TMP_MAX] candidate names
    is free. *)
Lemma named_temporary_file_fresh suffix w (i : nat) :
  (i < TMP_MAX)%nat -> fs w !! tmp_path (tmp_name (tmp_seq w + i)) suffix = None ->
  exists p w', named_temporary_file suffix w = (Normal p, w') /\
    fs w !! p = None /\ fs w' = <[p := []]> (fs w).
Proof.
  intros Hi Hfree. unfold named_temporary_file.
  destruct (mkstemp_loop_some TMP_MAX (fs w) (tmp_seq w) suffix i Hi Hfree) as (p & s & Hm).
  rewrite Hm. exists p. eexists. split_and!; [done | by eapply mkstemp_loop_fresh | done].
Qed.
End Calls.

(** The world with its log emptied. *)
Definition clear_logs (w : World) : World := mkWorld (fs w) (tmp_seq w) (disk_full w) [].

Lemma prepend_clear_logs w : prepend_logs (logs w) (clear_logs w) = w.
Proof. destruct w. unfold prepend_logs, clear_logs. simpl. by rewrite app_nil_r. Qed.

Lemma clear_prepend_logs pre w : clear_logs (prepend_logs pre w) = clear_logs w.
Proof. done. Qed.

(** A computation that does not read the log runs on [w] as it runs on
    [w] with its log emptied. *)
Lemma log_frame_run {A} (m : PyM World pyexc A) w :
  log_frame m -> m w = (fst (m (clear_logs w)), prepend_logs (logs w) (snd (m (clear_logs w)))).
Proof. intros Hm. rewrite <- (prepend_clear_logs w) at 1. apply Hm. Qed.

(** Two worlds that differ only in their logs: a computation that does
    not read the log has the same outcome on both, and appends the
    same records. *)
Lemma log_frame_same {A} (m : PyM World pyexc A) w1 w2 :
  log_frame m -> clear_logs w1 = clear_logs w2 ->
  exists o w', m w1 = (o, prepend_logs (logs w1) w') /\ m w2 = (o, prepend_logs (logs w2) w').
Proof.
  intros Hm Hc. rewrite (log_frame_run m w1), (log_frame_run m w2), Hc by done. eauto.
Qed.

#[export] Hint Extern 1 (commutes (prepend_logs _) _) =>
  first [ apply log_frame_log | apply log_frame_lib_call | apply log_frame_named_temporary_file
        | apply log_frame_export_wav | apply log_frame_whisper_transcribe
        | apply log_frame_os_unlink ] : pym.

(** ** A concrete backend *)

Record toy_audio : Type := mk_toy_audio {
  ta_channels : Z; ta_rate : Z; ta_samples : list byte }.

(** The transcript a toy model returns, shaped as whisper's result: text
    with surrounding spaces, one segment, the language. *)
Definition toy_result (start : pyfloat) : pyval :=
  PDict [("text", PStr " hello world");
         ("segments", PList [PDict [("id", PInt 0); ("start", PFloat start);
                                    ("end", PFloat (FFin (1520 # 1000)));
                                    ("text", PStr " hello world ")]]);
         ("language", PStr "en")].

(** A toy model: ["broken"] cannot be loaded; ["faulty"] loads but fails
    on every input; other models transcribe, and report a NaN start time
    for an input whose first byte is 255. *)
#[export] Program Instance ToyBackend : Backend := {
  Model := bool;
  Audio := toy_audio;
  load_model name :=
    if String.eqb name "broken" then None else Some (negb (String.eqb name "faulty"));
  from_file data :=
    match data with
    | [] => None
    | _ => Some (mk_toy_audio 2 44100 data)
    end;
  channels := ta_channels;
  frame_rate := ta_rate;
  set_channels a n := Some (mk_toy_audio n (ta_rate a) (ta_samples a));
  set_frame_rate a r := Some (mk_toy_audio (ta_channels a) r (ta_samples a));
  wav_encode a := Some (ta_samples a);
  model_transcribe ok bytes :=
    if ok then
      match bytes with
      | b :: _ => if Byte.eqb b xff then Some (toy_result FNaN) else Some (toy_result (FFin 0))
      | [] => Some (toy_result (FFin 0))
      end
    else None;
  tmp_name n := "toy" +:+ pretty (N.of_nat n)
}.

(** An empty world: no files, a free disk, no log. *)
Definition world0 : World := mkWorld ∅ 0 false [].

(** With the first candidate taken, the loop creates the second. *)
Example mkstemp_loop_second :
  mkstemp_loop (H := ToyBackend) 3 {[candidate (H := ToyBackend) 0 ".wav" 0 := []]} 0 ".wav" =
    Some (candidate (H := ToyBackend) 0 ".wav" 1, 2%nat).
Proof. vm_compute. reflexivity. Qed.
