(* ===== verification/Transcriber.v ===== *)
(** * [src/app/transcribe.py]: the [Transcriber] class

    One definition per method, over any [Backend]:
    - [Transcriber] is the object's state ([model_name], [model],
      [ready]); [Transcriber_init] is [__init__] (lines 18-36);
    - [ensure_wav] is [_ensure_wav] (lines 38-54): decode, downmix to
      one channel, resample to 16 kHz, write a temporary WAV file;
    - [shape_segment] and [shape_result] are the response-shaping body of
      [transcribe_bytes] (lines 62-72), a pure function of whisper's
      result that raises as Python does on a value of the wrong type;
    - [transcribe_bytes] is the method (lines 56-81): [_ensure_wav]
      outside the [try], the model call and shaping inside [try/except
      Exception], and [os.unlink] in the [finally] clause.

    [ensure_wav_spec] describes every outcome of [_ensure_wav] and is the
    lemma the theorems on [transcribe_bytes] are built on. *)

From stdpp Require Import base list list_monad gmap strings.
From Stdlib Require Import ZArith QArith String.
From Stdlib.Init Require Import Byte.
From S2P Require Import Prelude PyStr PyRound PyValue Backend.

(** The messages of the two [TranscriptionError]s the module raises. *)
Definition msg_unsupported : string := "Unsupported or corrupt audio format".
Definition msg_failed : string := "Transcription failed".

Section Transcriber.
Context `{Backend}.

Record Transcriber : Type := mkTranscriber {
  model_name : string;
  model : Model;
  ready : bool
}.

(** [__init__(model_name, device=None)].  The device (line 25) is
    computed and never used: the call on line 31 passes none.  When
    [load_model] raises, [self.ready = False] is set on an object that
    is never returned, and the exception propagates. *)
Definition Transcriber_init (name : string) : PyM World pyexc Transcriber :=
  log INFO "Loading whisper model=%s" ;;;
  ptry (let* m := lib_call "whisper.load_model" (load_model name) in
        pret (mkTranscriber name m true))
       (fun e => log ERROR "Failed to load whisper model" ;;; praise e).

(** [_ensure_wav(data)] *)
Definition ensure_wav (data : list byte) : PyM World pyexc string :=
  let* audio := ptry (lib_call "pydub.from_file" (from_file data))
                     (fun _ => log ERROR "Unsupported or corrupt audio format" ;;;
                               praise (TranscriptionError msg_unsupported)) in
  let* mono := lib_call "pydub.set_channels" (set_channels audio 1) in
  let* audio16k := lib_call "pydub.set_frame_rate" (set_frame_rate mono 16000) in
  let* tmp := named_temporary_file ".wav" in
  export_wav audio16k tmp ;;;
  log DEBUG "Converted audio to wav: %s" ;;;
  pret tmp.

(** [{"start": round(s.get("start", 0.0), 3), "end": round(s.get("end",
    0.0), 3), "text": s.get("text", "").strip()}], evaluated left to right. *)
Definition shape_segment (s : pyval) : outcome pyexc pyval :=
  let? st := dict_get s "start" (PFloat (FFin 0)) in
  let? st' := py_round3 st in
  let? en := dict_get s "end" (PFloat (FFin 0)) in
  let? en' := py_round3 en in
  let? tx := dict_get s "text" (PStr "") in
  let? tx' := py_strip tx in
  Normal (PDict [("start", st'); ("end", en'); ("text", tx')]).

(** Lines 62-72: the response dictionary built from whisper's result. *)
Definition shape_result (name : string) (result : pyval) : outcome pyexc pyval :=
  let? text0 := dict_get result "text" (PStr "") in
  let? text := py_strip text0 in
  let? segs0 := dict_get result "segments" PNone in
  let segments := py_or segs0 (PList []) in
  let? language := dict_get result "language" PNone in
  let? items := py_iter segments in
  let? segs := omap shape_segment items in
  Normal (PDict [("text", text); ("language", language);
                 ("segments", PList segs); ("model", PStr name)]).

(** Lines 58-76: the body of the [try] and its [except Exception]. *)
Definition run_model (t : Transcriber) (wav_path : string) : PyM World pyexc pyval :=
  ptry (let* result := whisper_transcribe (model t) wav_path in
        plift (shape_result (model_name t) result))
       (fun _ => log ERROR "Transcription engine error" ;;;
                 praise (TranscriptionError msg_failed)).

(** Lines 77-81: the [finally] clause, which swallows any failure. *)
Definition unlink_quietly (wav_path : string) : PyM World pyexc unit :=
  ptry (os_unlink wav_path) (fun _ => pret tt).

(** [transcribe_bytes(data, filename)]; [filename] (an [Optional[str]]
    as [main.py] passes it) is not used. *)
Definition transcribe_bytes (t : Transcriber) (data : list byte) (filename : option string)
    : PyM World pyexc pyval :=
  let* wav_path := ensure_wav data in
  pfinally (run_model t wav_path) (unlink_quietly wav_path).

(** ** Segment boundaries *)

(** The boundaries of a segment as [round] reads them, defaults
    included, when both are finite floats. *)
Definition seg_bounds (s : pyval) : option (Q * Q) :=
  match dict_get s "start" (PFloat (FFin 0)), dict_get s "end" (PFloat (FFin 0)) with
  | Normal (PFloat (FFin a)), Normal (PFloat (FFin b)) => Some (a, b)
  | _, _ => None
  end.

(** Segments in chronological order: each starts no later than it ends
    and ends no later than the next one starts (spec, section 3). *)
Fixpoint chronological (l : list (Q * Q)) : bool :=
  match l with
  | [] => true
  | (a, b) :: l' =>
      Qle_bool a b &&
      match l' with [] => true | (c, _) :: _ => Qle_bool b c end &&
      chronological l'
  end.

Definition round_bounds (ab : Q * Q) : Q * Q := (round3 ab.1, round3 ab.2).

(** ** Every outcome of [_ensure_wav] *)

Inductive ensure_wav_spec (data : list byte) (w : World)
    : outcome pyexc string -> World -> Prop :=
| EW_unsupported :
    from_file data = None ->
    ensure_wav_spec data w (Raised (TranscriptionError msg_unsupported))
      (add_log (mk_log ERROR msg_unsupported) w)
| EW_no_file e w' :
    is_TranscriptionError e = false -> fs w' = fs w ->
    ensure_wav_spec data w (Raised e) w'
| EW_export_failed e p a w' :
    is_TranscriptionError e = false -> fs w !! p = None ->
    (disk_full w = true \/ wav_encode a = None) ->
    fs w' = <[p := []]> (fs w) ->
    ensure_wav_spec data w (Raised e) w'
| EW_ok p a0 a1 a bytes w' :
    from_file data = Some a0 -> set_channels a0 1 = Some a1 ->
    set_frame_rate a1 16000 = Some a ->
    fs w !! p = None -> channels a = 1%Z -> frame_rate a = 16000%Z ->
    wav_encode a = Some bytes -> fs w' = <[p := bytes]> (fs w) ->
    ensure_wav_spec data w (Normal p) w'.

Lemma ensure_wav_correct data w :
  ensure_wav_spec data w (ensure_wav data w).1 (ensure_wav data w).2.
Proof.
  unfold ensure_wav, lib_call, log, named_temporary_file, export_wav.
  destruct (from_file data) as [audio|] eqn:Hf; pym_unfold; [|by constructor].
  destruct (set_channels audio 1) as [mono|] eqn:Hc; pym_unfold; [|by constructor].
  destruct (set_frame_rate mono 16000) as [a|] eqn:Hr; pym_unfold; [|by constructor].
  destruct (mkstemp_loop TMP_MAX (fs w) (tmp_seq w) ".wav") as [[p seq']|] eqn:Hm;
    pym_unfold; [|by constructor].
  apply mkstemp_loop_fresh in Hm.
  pose proof (set_channels_spec _ _ _ Hc) as [Hc1 Hc2].
  pose proof (set_frame_rate_spec _ _ _ Hr) as [Hr1 Hr2].
  destruct (wav_encode a) as [bytes|] eqn:He; pym_unfold.
  - world_simpl. destruct (disk_full w) eqn:Hd; pym_unfold; world_simpl.
    + eapply (EW_export_failed _ _ _ p a); eauto.
    + apply (EW_ok _ _ p audio mono a bytes); [done .. | congruence | done | done |].
      world_simpl. by rewrite insert_insert_eq.
  - eapply (EW_export_failed _ _ _ p a); eauto.
Qed.

(** ** [__init__] *)

Lemma Transcriber_init_ok name m w :
  load_model name = Some m ->
  Transcriber_init name w =
    (Normal (mkTranscriber name m true), add_log (mk_log INFO "Loading whisper model=%s") w).
Proof. intros Hm. unfold Transcriber_init, lib_call, log. rewrite Hm. by pym_unfold. Qed.

Lemma Transcriber_init_fail name w :
  load_model name = None ->
  Transcriber_init name w =
    (Raised (LibraryError "whisper.load_model"),
     add_log (mk_log ERROR "Failed to load whisper model")
       (add_log (mk_log INFO "Loading whisper model=%s") w)).
Proof. intros Hm. unfold Transcriber_init, lib_call, log. rewrite Hm. by pym_unfold. Qed.

(** ** The model call and the cleanup *)

(** What the [try] block does once the WAV file holds [bytes]. *)
Lemma run_model_cases t p w bytes :
  fs w !! p = Some bytes ->
  run_model t p w =
    match model_transcribe (model t) bytes with
    | Some r =>
        match shape_result (model_name t) r with
        | Normal v => (Normal v, w)
        | Raised _ => (Raised (TranscriptionError msg_failed),
                       add_log (mk_log ERROR "Transcription engine error") w)
        end
    | None => (Raised (TranscriptionError msg_failed),
               add_log (mk_log ERROR "Transcription engine error") w)
    end.
Proof.
  intros Hp. unfold run_model, whisper_transcribe, lib_call, log.
  pym_unfold. rewrite Hp.
  destruct (model_transcribe (model t) bytes) as [r|]; pym_unfold; [|done].
  by destruct (shape_result (model_name t) r).
Qed.

Lemma run_model_fs t p w : fs (run_model t p w).2 = fs w.
Proof.
  unfold run_model, whisper_transcribe, lib_call, log. pym_unfold.
  destruct (fs w !! p); pym_unfold; [|done].
  destruct (model_transcribe _ _); pym_unfold; [|done].
  by destruct (shape_result _ _).
Qed.

(** The [finally] clause removes the file the [try] block left in place,
    and the outcome is the block's. *)
Lemma run_model_then_unlink t p w bytes :
  fs w !! p = Some bytes ->
  pfinally (run_model t p) (unlink_quietly p) w =
    ((run_model t p w).1, set_fs (delete p) (run_model t p w).2).
Proof.
  intros Hp. unfold pfinally.
  destruct (run_model t p w) as [r w1] eqn:E.
  assert (fs w1 = fs w) as Hw1 by (by rewrite <- (run_model_fs t p w), E).
  unfold unlink_quietly, os_unlink. pym_unfold. by rewrite Hw1, Hp.
Qed.

(** Run [transcribe_bytes] up to the end of [_ensure_wav] and split on
    the outcomes of [ensure_wav_spec]. *)
Lemma transcribe_bytes_eq t data filename w :
  transcribe_bytes t data filename w =
    match ensure_wav data w with
    | (Normal p, w1) => pfinally (run_model t p) (unlink_quietly p) w1
    | (Raised e, w1) => (Raised e, w1)
    end.
Proof. reflexivity. Qed.

Ltac ensure_wav_cases data w :=
  rewrite transcribe_bytes_eq;
  let E := fresh "E" in let Hs := fresh "Hs" in
  destruct (ensure_wav data w) as [?r1 ?w1] eqn:E;
  pose proof (ensure_wav_correct data w) as Hs; rewrite E in Hs; simpl in Hs;
  destruct Hs as [Hf | ?e ?w' Hte Hfs | ?e ?p ?a ?w' Hte Hp Hcause Hfs
                 | ?p ?a0 ?a1 ?a ?bytes ?w' Hf Hc Hr Hp Hch Hfr Henc Hfs].

(** [_ensure_wav] succeeds when the input decodes, the disk has room
    and one of tempfile's next candidates is free. *)
Lemma ensure_wav_runs data w a0 a1 a bytes (i : nat) :
  from_file data = Some a0 -> set_channels a0 1 = Some a1 ->
  set_frame_rate a1 16000 = Some a -> wav_encode a = Some bytes ->
  disk_full w = false ->
  (i < TMP_MAX)%nat -> fs w !! tmp_path (tmp_name (tmp_seq w + i)) ".wav" = None ->
  exists p w1, ensure_wav data w = (Normal p, w1) /\ fs w1 = <[p := bytes]> (fs w).
Proof.
  intros Hf Hc Hr He Hd Hi Hfree.
  destruct (mkstemp_loop_some TMP_MAX (fs w) (tmp_seq w) ".wav" i Hi Hfree) as (p & seq' & Hm).
  exists p. eexists. unfold ensure_wav, lib_call, named_temporary_file, export_wav, log.
  rewrite Hf. pym_unfold. rewrite Hc. pym_unfold. rewrite Hr. pym_unfold.
  rewrite Hm. pym_unfold. world_simpl. rewrite He, Hd. pym_unfold.
  split; [done|]. world_simpl. by rewrite insert_insert_eq.
Qed.

(** After [_ensure_wav] wrote [bytes] to [p], the call is the model
    call followed by the removal of [p]. *)
Lemma transcribe_bytes_after_wav t data filename w p w1 bytes :
  ensure_wav data w = (Normal p, w1) -> fs w1 = <[p := bytes]> (fs w) ->
  transcribe_bytes t data filename w =
    ((run_model t p w1).1, set_fs (delete p) (run_model t p w1).2).
Proof.
  intros E Hfs. rewrite transcribe_bytes_eq, E.
  apply run_model_then_unlink with (bytes := bytes). rewrite Hfs. apply lookup_insert_eq.
Qed.

(** [transcribe_bytes] neither reads nor rewrites the records logged
    before it runs. *)
Lemma transcribe_bytes_log_frame t data filename : log_frame (transcribe_bytes t data filename).
Proof.
  intros pre. unfold transcribe_bytes, ensure_wav, run_model, unlink_quietly. auto 20 with pym.
Qed.

(** ** Theorems on [transcribe_bytes] *)

(** Input pydub cannot decode raises [TranscriptionError("Unsupported or
    corrupt audio format")] after one ERROR log record, and leaves the
    file system as it was. *)
Lemma transcribe_bytes_unsupported t data filename w :
  from_file data = None ->
  transcribe_bytes t data filename w =
    (Raised (TranscriptionError msg_unsupported), add_log (mk_log ERROR msg_unsupported) w).
Proof.
  intros Hf. unfold transcribe_bytes, ensure_wav, lib_call. rewrite Hf. by pym_unfold.
Qed.

(** The model call and its [finally] clause remove the file [_ensure_wav]
    wrote to a free path. *)
Lemma run_model_cleanup_fs t p w1 files bytes :
  fs w1 = <[p := bytes]> files -> files !! p = None ->
  fs (pfinally (run_model t p) (unlink_quietly p) w1).2 = files.
Proof.
  intros Hfs Hp. rewrite run_model_then_unlink with (bytes := bytes)
    by (rewrite Hfs; apply lookup_insert_eq).
  world_simpl. rewrite run_model_fs, Hfs. by apply delete_insert_id.
Qed.

(** When the disk has room and the WAV encoder does not fail, the
    temporary file is gone after the call, whatever its outcome: the
    file system is the one before the call. *)
Lemma transcribe_bytes_fs_restored t data filename w :
  disk_full w = false -> (forall a, wav_encode a <> None) ->
  fs (transcribe_bytes t data filename w).2 = fs w.
Proof.
  intros Hd He. ensure_wav_cases data w; world_simpl; try done.
  - destruct Hcause as [Hc|Hc]; [congruence | by destruct (He a)].
  - by eapply run_model_cleanup_fs.
Qed.

(** Whatever happens, the call changes no file that existed before it:
    the file system after it is the one before, or that one with a
    single new empty file at a path that was free. *)
Lemma transcribe_bytes_fs_cases t data filename w :
  fs (transcribe_bytes t data filename w).2 = fs w \/
  exists p, fs w !! p = None /\ fs (transcribe_bytes t data filename w).2 = <[p := []]> (fs w).
Proof.
  ensure_wav_cases data w; world_simpl.
  - by left.
  - by left.
  - right. by exists p.
  - left. by eapply run_model_cleanup_fs.
Qed.

(** C9: The temporary file leaks when writing it fails: with a full disk,
    input that decodes and a free name among tempfile's candidates, the
    call raises [OSError] (not a [TranscriptionError]) and the empty
    temporary file created by [NamedTemporaryFile] stays on disk. *)
Theorem transcribe_bytes_leaks_on_full_disk t data filename w a0 a1 a bytes (i : nat) :
  from_file data = Some a0 -> set_channels a0 1 = Some a1 ->
  set_frame_rate a1 16000 = Some a -> wav_encode a = Some bytes ->
  (i < TMP_MAX)%nat -> fs w !! tmp_path (tmp_name (tmp_seq w + i)) ".wav" = None ->
  disk_full w = true ->
  exists p w', transcribe_bytes t data filename w = (Raised (OSError "ENOSPC"), w') /\
    fs w !! p = None /\ fs w' = <[p := []]> (fs w).
Proof.
  intros Hf Hc Hr He Hi Hfree Hd.
  destruct (mkstemp_loop_some TMP_MAX (fs w) (tmp_seq w) ".wav" i Hi Hfree) as (p & seq' & Hm).
  exists p. eexists. rewrite transcribe_bytes_eq.
  unfold ensure_wav, lib_call, named_temporary_file, export_wav.
  rewrite Hf. pym_unfold. rewrite Hc. pym_unfold. rewrite Hr. pym_unfold.
  rewrite Hm. pym_unfold. world_simpl. rewrite He, Hd. pym_unfold.
  split_and!; [done | by eapply mkstemp_loop_fresh | done].
Qed.

(** C13: Once the WAV file is written, the only exception [transcribe_bytes]
    raises is [TranscriptionError("Transcription failed")]: whatever the
    model or the response shaping raises is converted, and a failing
    [os.unlink] is swallowed. *)
Theorem transcribe_bytes_engine_error t data filename w p w1 e :
  ensure_wav data w = (Normal p, w1) ->
  (transcribe_bytes t data filename w).1 = Raised e ->
  e = TranscriptionError msg_failed.
Proof.
  intros E. pose proof (ensure_wav_correct data w) as Hs. rewrite E in Hs. simpl in Hs.
  inversion Hs as [| | |? a0 a1 a bytes ? _ _ _ _ _ _ Henc Hfs]; subst.
  rewrite transcribe_bytes_eq, E, run_model_then_unlink with (bytes := bytes)
    by (rewrite Hfs; apply lookup_insert_eq).
  simpl. rewrite run_model_cases with (bytes := bytes) by (rewrite Hfs; apply lookup_insert_eq).
  destruct (model_transcribe _ _) as [r|]; [destruct (shape_result _ r)|];
    by intros [= <-].
Qed.

(** What a successful [transcribe_bytes] did: the decoding chain, the model call and the shaping all succeeded, and the file system is restored. *)
Lemma transcribe_bytes_normal t data filename w v wr :
  transcribe_bytes t data filename w = (Normal v, wr) ->
  exists a0 a1 a bytes result,
    from_file data = Some a0 /\ set_channels a0 1 = Some a1 /\
    set_frame_rate a1 16000 = Some a /\
    channels a = 1%Z /\ frame_rate a = 16000%Z /\ wav_encode a = Some bytes /\
    model_transcribe (model t) bytes = Some result /\
    shape_result (model_name t) result = Normal v /\ fs wr = fs w.
Proof.
  ensure_wav_cases data w; try discriminate.
  assert (Hin : fs w' !! p = Some bytes) by (rewrite Hfs; apply lookup_insert_eq).
  rewrite run_model_then_unlink with (bytes := bytes) by done.
  rewrite run_model_cases with (bytes := bytes) by done.
  destruct (model_transcribe _ _) as [r|] eqn:Hm; [|discriminate].
  destruct (shape_result _ r) eqn:Hsh; intros [= -> <-].
  exists a0, a1, a, bytes, r. split_and!; try done.
  world_simpl. rewrite Hfs. by apply delete_insert_id.
Qed.

(** C12: A successful call decoded the input, downmixed it to one channel,
    resampled it to 16 kHz, handed the model the WAV encoding of that
    audio, shaped the model's result into the response, and left the
    file system as it found it. *)
Theorem transcribe_bytes_success t data filename w v wr :
  transcribe_bytes t data filename w = (Normal v, wr) ->
  exists a0 a1 a bytes result,
    from_file data = Some a0 /\ set_channels a0 1 = Some a1 /\
    set_frame_rate a1 16000 = Some a /\
    channels a = 1%Z /\ frame_rate a = 16000%Z /\ wav_encode a = Some bytes /\
    model_transcribe (model t) bytes = Some result /\
    shape_result (model_name t) result = Normal v /\ fs wr = fs w.
Proof. apply transcribe_bytes_normal. Qed.

(** ** Response shaping *)

Lemma shape_segment_bounds s s' a b :
  shape_segment s = Normal s' -> seg_bounds s = Some (a, b) ->
  seg_bounds s' = Some (round3 a, round3 b).
Proof.
  unfold shape_segment, seg_bounds. intros Hs Hb. obind_inv.
  destruct s as [| | | | | |kvs]; try discriminate. simpl in *. simplify_eq/=.
  repeat case_match; simplify_eq/=; done.
Qed.

Lemma shape_segments_bounds items segs bs :
  Forall2 (fun x y => shape_segment x = Normal y) items segs ->
  Forall2 (fun x b => seg_bounds x = Some b) items bs ->
  Forall2 (fun y b => seg_bounds y = Some b) segs (map round_bounds bs).
Proof.
  intros Hs. revert bs. induction Hs as [|x y items segs Hxy _ IH]; intros bs Hb;
    inversion Hb as [|? [a b] ? bs' Hx Hrest]; subst; constructor; [|by apply IH].
  by eapply shape_segment_bounds.
Qed.

Lemma py_or_list (l : list pyval) : py_or (PList l) (PList []) = PList l.
Proof. by destruct l. Qed.

Lemma chronological_round bs :
  chronological bs = true -> chronological (map round_bounds bs) = true.
Proof.
  induction bs as [|[a b] bs IH]; [done|]. simpl.
  intros [[Hab Hnext]%andb_prop Hrest]%andb_prop.
  apply andb_true_intro; split; [apply andb_true_intro; split|by apply IH].
  - apply Qle_bool_iff, round_to_monotone, Qle_bool_iff, Hab.
  - destruct bs as [|[c d] bs]; [done|]. simpl.
    apply Qle_bool_iff, round_to_monotone, Qle_bool_iff, Hnext.
Qed.

(** C14: Rounding keeps the segments in order: when the segments of
    whisper's result have finite float boundaries and are
    chronological, the response's segments carry the boundaries rounded
    to the millisecond and are chronological too. *)
Theorem shape_result_chronological name r v items bs :
  shape_result name r = Normal v ->
  dict_get r "segments" PNone = Normal (PList items) ->
  mapM seg_bounds items = Some bs -> chronological bs = true ->
  exists segs, dict_get v "segments" PNone = Normal (PList segs) /\
    mapM seg_bounds segs = Some (map round_bounds bs) /\
    chronological (map round_bounds bs) = true.
Proof.
  unfold shape_result. intros Hv Hsegs Hb Hc. obind_inv.
  rewrite Hsegs in Ho1. simplify_eq. rewrite py_or_list in Ho3. simplify_eq/=.
  eexists. split_and!; [done | | by apply chronological_round].
  apply mapM_Some_2. eapply shape_segments_bounds; [by apply omap_Normal |].
  by apply mapM_Some_1.
Qed.
(** [v.strip()] succeeds on strings only. *)
Lemma py_strip_inv x y : py_strip x = Normal y -> exists s, x = PStr s /\ y = PStr (strip s).
Proof. destruct x; simpl; intros [=]; eauto. Qed.

Lemma stripped_of_strip s : stripped_of s (strip s).
Proof. by apply strip_spec. Qed.

(** A shaped segment carries whisper's segment text without the
    whitespace around it. *)
Lemma shape_segment_text s s' :
  shape_segment s = Normal s' ->
  exists tx0 tx st en, dict_get s "text" (PStr "") = Normal (PStr tx0) /\ stripped_of tx0 tx /\
    s' = PDict [("start", st); ("end", en); ("text", PStr tx)].
Proof.
  unfold shape_segment. intros Hs. obind_inv. simplify_eq.
  destruct (py_strip_inv _ _ Ho4) as (tx0 & -> & ->).
  do 4 eexists. split_and!; [done | apply stripped_of_strip | done].
Qed.

(** C25: The texts of the response are whisper's texts without the
    whitespace around them: the transcript is the result's ["text"] (a
    string) stripped of its surrounding whitespace, and so is the text
    of each response segment, taken from the whisper segment it was
    shaped from; nothing else of the texts is changed. *)
Theorem shape_result_stripped name r v :
  shape_result name r = Normal v ->
  exists text0 text lang items segs,
    dict_get r "text" (PStr "") = Normal (PStr text0) /\ stripped_of text0 text /\
    v = PDict [("text", PStr text); ("language", lang); ("segments", PList segs);
               ("model", PStr name)] /\
    (forall l, dict_get r "segments" PNone = Normal (PList l) -> items = l) /\
    Forall2 (fun s s' => exists tx0 tx st en,
               dict_get s "text" (PStr "") = Normal (PStr tx0) /\ stripped_of tx0 tx /\
               s' = PDict [("start", st); ("end", en); ("text", PStr tx)]) items segs.
Proof.
  unfold shape_result. intros Hv. obind_inv. simplify_eq.
  destruct (py_strip_inv _ _ Ho0) as (text0 & -> & ->).
  apply omap_Normal in Ho4.
  do 5 eexists. split_and!; [done | apply stripped_of_strip | done | |].
  - intros l Hl. rewrite Hl in Ho1. simplify_eq. rewrite py_or_list in Ho3. by simplify_eq/=.
  - eapply Forall2_impl; [exact Ho4|]. intros s s'. apply shape_segment_text.
Qed.
End Transcriber.

(** ** Witnesses on the toy backend *)

(** A transcriber holding a toy model; ["faulty"] fails on every input. *)
Definition toy_transcriber (name : string) : @Transcriber ToyBackend :=
  mkTranscriber name (negb (String.eqb name "faulty")) true.

(** A world whose disk is full. *)
Definition world_full : World := mkWorld ∅ 0 true [].

Lemma transcribe_bytes_leaks_on_full_disk_witness :
  exists p w', transcribe_bytes (toy_transcriber "base") [x01] (Some "a.m4a") world_full =
                 (Raised (OSError "ENOSPC"), w') /\
               fs world_full !! p = None /\ fs w' = <[p := []]> (fs world_full).
Proof.
  apply (@transcribe_bytes_leaks_on_full_disk ToyBackend _ _ _ _
           (mk_toy_audio 2 44100 [x01]) (mk_toy_audio 1 44100 [x01])
           (mk_toy_audio 1 16000 [x01]) [x01] 0); first [exact TMP_MAX_pos | reflexivity].
Defined.

Lemma transcribe_bytes_engine_error_witness :
  (transcribe_bytes (toy_transcriber "faulty") [x01] (Some "a.m4a") world0).1 =
    Raised (TranscriptionError msg_failed) /\
  TranscriptionError msg_failed = TranscriptionError msg_failed.
Proof.
  split; [vm_compute; reflexivity|].
  apply (transcribe_bytes_engine_error (toy_transcriber "faulty") [x01] (Some "a.m4a") world0
           (tmp_path (tmp_name 0) ".wav") (ensure_wav [x01] world0).2);
    vm_compute; reflexivity.
Defined.

Lemma transcribe_bytes_success_witness :
  exists a0 a1 a bytes result,
    from_file [x01] = Some a0 /\ set_channels a0 1 = Some a1 /\
    set_frame_rate a1 16000 = Some a /\
    channels a = 1%Z /\ frame_rate a = 16000%Z /\ wav_encode a = Some bytes /\
    model_transcribe (model (toy_transcriber "base")) bytes = Some result /\
    shape_result "base" result =
      Normal (match (transcribe_bytes (toy_transcriber "base") [x01] (Some "a.m4a") world0).1 with
              | Normal v => v | Raised _ => PNone end) /\
    fs (transcribe_bytes (toy_transcriber "base") [x01] (Some "a.m4a") world0).2 = fs world0.
Proof.
  eapply (transcribe_bytes_success (toy_transcriber "base") [x01] (Some "a.m4a") world0).
  vm_compute. reflexivity.
Defined.

Lemma shape_result_chronological_witness :
  exists segs,
    dict_get (match shape_result "base" (toy_result (FFin 0)) with
              | Normal v => v | Raised _ => PNone end) "segments" PNone = Normal (PList segs) /\
    mapM seg_bounds segs = Some (map round_bounds [(0%Q, 1520 # 1000)]) /\
    chronological (map round_bounds [(0%Q, 1520 # 1000)]) = true.
Proof.
  eapply (shape_result_chronological "base" (toy_result (FFin 0)) _
            [PDict [("id", PInt 0); ("start", PFloat (FFin 0));
                    ("end", PFloat (FFin (1520 # 1000))); ("text", PStr " hello world ")]]);
    vm_compute; reflexivity.
Defined.

(** A whisper result whose texts carry whitespace. *)
Definition whisper_sample : pyval :=
  PDict [("text", PStr " hello "); ("language", PStr "en");
         ("segments", PList [PDict [("start", PFloat (FFin 0)); ("end", PFloat (FFin 1));
                                    ("text", PStr " hello ")]])].

Lemma shape_result_stripped_witness :
  exists v, shape_result "base" whisper_sample = Normal v /\
  exists text0 text lang items segs,
    dict_get whisper_sample "text" (PStr "") = Normal (PStr text0) /\ stripped_of text0 text /\
    v = PDict [("text", PStr text); ("language", lang); ("segments", PList segs);
               ("model", PStr "base")] /\
    (forall l, dict_get whisper_sample "segments" PNone = Normal (PList l) -> items = l) /\
    Forall2 (fun s s' => exists tx0 tx st en,
               dict_get s "text" (PStr "") = Normal (PStr tx0) /\ stripped_of tx0 tx /\
               s' = PDict [("start", st); ("end", en); ("text", PStr tx)]) items segs.
Proof.
  eexists. split; [reflexivity|]. apply shape_result_stripped. reflexivity.
Defined.
