(* ===== verification/Schemas.v ===== *)
(** * [src/app/schemas.py]: the response schema

    [Segment] and [TranscriptionResponse] are pydantic models.  A model
    class is the validator pydantic derives from its annotations and
    the [model_dump] that turns an instance back into a dictionary;
    both are modelled here on [pyval], for pydantic 2 in its default
    (lax) mode on Python input:

    - [float] accepts a float (infinities and NaN included, as
      [allow_inf_nan] defaults to true), an [int], a [bool], and a
      string that parses as a float; the parser is the section variable
      [float_of_str], since no value the service builds is a string in
      a [float] field;
    - [str] accepts only a string ([bytes] is not a [pyval]);
    - [Optional[str]] with no default is a required field that accepts
      [None] or a string;
    - [List[Segment]] accepts a list of values each valid as a [Segment];
    - a model accepts a dictionary that has every field; other keys
      are ignored.

    Validation returns [None] where pydantic raises [ValidationError]
    (the list of errors it reports is not modelled).  An [int] in a
    [float] field is kept as its exact value: the rounding of integers
    beyond 2^53 to the nearest double is not modelled.

    [main.py] declares [response_model=TranscriptionResponse] but
    returns a [JSONResponse], which FastAPI sends without validation
    ([Service]).  The theorems say what that validation would have
    found: the dictionary [shape_result] builds conforms to the schema
    exactly when whisper's ["language"] is [None] or a string, and
    [model_dump] and validation are inverse. *)

From stdpp Require Import base list list_monad.
From Stdlib Require Import ZArith QArith String.
From S2P Require Import Prelude PyStr PyRound PyValue Backend Transcriber.

Local Open Scope string_scope.

(** [class Segment(BaseModel)] *)
Record Segment : Type := mkSegment {
  Segment_start : pyfloat;
  Segment_end : pyfloat;
  Segment_text : string
}.

(** [class TranscriptionResponse(BaseModel)] *)
Record TranscriptionResponse : Type := mkTranscriptionResponse {
  TranscriptionResponse_text : string;
  TranscriptionResponse_language : option string;
  TranscriptionResponse_segments : list Segment;
  TranscriptionResponse_model : string
}.

Section Validation.
Context (float_of_str : string -> option pyfloat).

(** A field annotated [float]. *)
Definition validate_float (v : pyval) : option pyfloat :=
  match v with
  | PFloat f => Some f
  | PInt z => Some (FFin (inject_Z z))
  | PBool b => Some (FFin (if b then 1 else 0)%Q)
  | PStr s => float_of_str s
  | _ => None
  end.

(** A field annotated [str]. *)
Definition validate_str (v : pyval) : option string :=
  match v with PStr s => Some s | _ => None end.

(** A field annotated [Optional[str]]. *)
Definition validate_optional_str (v : pyval) : option (option string) :=
  match v with
  | PNone => Some None
  | PStr s => Some (Some s)
  | _ => None
  end.

(** A required field of a model: the key must be present. *)
Definition field (kvs : list (string * pyval)) (k : string) : option pyval :=
  assoc_lookup k kvs.

(** [Segment.model_validate(v)] *)
Definition validate_Segment (v : pyval) : option Segment :=
  match v with
  | PDict kvs =>
      st ← field kvs "start" ≫= validate_float;
      en ← field kvs "end" ≫= validate_float;
      tx ← field kvs "text" ≫= validate_str;
      Some (mkSegment st en tx)
  | _ => None
  end.

(** A field annotated [List[Segment]]. *)
Definition validate_segments (v : pyval) : option (list Segment) :=
  match v with PList l => mapM validate_Segment l | _ => None end.

(** [TranscriptionResponse.model_validate(v)] *)
Definition validate_TranscriptionResponse (v : pyval) : option TranscriptionResponse :=
  match v with
  | PDict kvs =>
      tx ← field kvs "text" ≫= validate_str;
      lang ← field kvs "language" ≫= validate_optional_str;
      segs ← field kvs "segments" ≫= validate_segments;
      mdl ← field kvs "model" ≫= validate_str;
      Some (mkTranscriptionResponse tx lang segs mdl)
  | _ => None
  end.
End Validation.

(** [segment.model_dump()]: the fields in declaration order. *)
Definition dump_Segment (s : Segment) : pyval :=
  PDict [("start", PFloat (Segment_start s)); ("end", PFloat (Segment_end s));
         ("text", PStr (Segment_text s))].

(** [response.model_dump()] *)
Definition dump_TranscriptionResponse (r : TranscriptionResponse) : pyval :=
  PDict [("text", PStr (TranscriptionResponse_text r));
         ("language", match TranscriptionResponse_language r with
                      | Some l => PStr l | None => PNone end);
         ("segments", PList (dump_Segment <$> TranscriptionResponse_segments r));
         ("model", PStr (TranscriptionResponse_model r))].

(** [None] and strings, the values an [Optional[str]] field accepts. *)
Definition is_optional_str (v : pyval) : bool :=
  match v with PNone | PStr _ => true | _ => false end.

(** What FastAPI's [serialize_response] makes of a handler's return
    value under [response_model=TranscriptionResponse]: validate it,
    then dump the instance; [None] is the [ResponseValidationError]. *)
Definition serialize_response (float_of_str : string -> option pyfloat) (v : pyval)
    : option pyval :=
  dump_TranscriptionResponse <$> validate_TranscriptionResponse float_of_str v.

(** A whisper segment whose ["start"] and ["end"] are floats, or absent. *)
Definition float_or_default (o : outcome pyexc pyval) : bool :=
  match o with Normal (PFloat _) => true | _ => false end.

Definition seg_times_float (s : pyval) : bool :=
  float_or_default (dict_get s "start" (PFloat (FFin 0))) &&
  float_or_default (dict_get s "end" (PFloat (FFin 0))).

(** ** Field validators on the values the service builds *)

Section Lemmas.
Context (float_of_str : string -> option pyfloat).

Lemma validate_Segment_dump s : validate_Segment float_of_str (dump_Segment s) = Some s.
Proof. by destruct s. Qed.

(** [round(x, 3)] yields a number, which a [float] field accepts. *)
Lemma py_round3_float x y :
  py_round3 x = Normal y ->
  exists f, validate_float float_of_str y = Some f /\
    (float_or_default (Normal x) = true -> y = PFloat f).
Proof.
  destruct x as [| | |[]| | |]; simpl; intros [=]; subst; eauto; by eexists.
Qed.

Lemma py_strip_str x y : py_strip x = Normal y -> exists s, y = PStr s.
Proof. intros (s & _ & ->)%py_strip_inv. eauto. Qed.

(** Every segment [transcribe_bytes] builds is a valid [Segment], and
    dumping it gives it back when whisper's times were floats. *)
Lemma shape_segment_valid s v :
  shape_segment s = Normal v ->
  exists r, validate_Segment float_of_str v = Some r /\
    (seg_times_float s = true -> dump_Segment r = v).
Proof.
  unfold shape_segment, seg_times_float. intros Hs. obind_inv. simplify_eq.
  destruct (py_round3_float _ _ Ho0) as (f1 & Hf1 & Hd1).
  destruct (py_round3_float _ _ Ho2) as (f2 & Hf2 & Hd2).
  destruct (py_strip_str _ _ Ho4) as [t ->].
  eexists. split; [simpl; by rewrite Hf1, Hf2|].
  rewrite Ho, Ho1. intros [H1 H2]%andb_prop.
  unfold dump_Segment; simpl. by rewrite <- Hd1, <- Hd2.
Qed.

(** The shape of the dictionary [shape_result] builds. *)
Lemma shape_result_inv name result v :
  shape_result name result = Normal v ->
  exists text lang items segs,
    v = PDict [("text", PStr text); ("language", lang); ("segments", PList segs);
               ("model", PStr name)] /\
    dict_get result "language" PNone = Normal lang /\
    Forall2 (fun x y => shape_segment x = Normal y) items segs /\
    (forall l, dict_get result "segments" PNone = Normal (PList l) -> items = l).
Proof.
  unfold shape_result. intros Hs. obind_inv. simplify_eq.
  destruct (py_strip_str _ _ Ho0) as [t ->].
  apply omap_Normal in Ho4.
  do 4 eexists. split_and!; [done | done | exact Ho4 |].
  intros l Hl. rewrite Hl in Ho1. simplify_eq. rewrite py_or_list in Ho3. by simplify_eq/=.
Qed.

(** A segment whose start or end is NaN or infinite keeps it through
    [round] and shaping, so the shaped segment cannot be rendered as
    JSON. *)
Lemma shape_segment_nonfinite s s' k f :
  shape_segment s = Normal s' -> k = "start" \/ k = "end" ->
  dict_get s k (PFloat (FFin 0)) = Normal (PFloat f) -> (forall q, f <> FFin q) ->
  json_ok s' = false.
Proof.
  unfold shape_segment. intros Hs Hk Hd Hf. obind_inv. simplify_eq.
  assert (Hnf : forall g, py_round3 (PFloat f) = Normal g -> json_ok g = false).
  { intros g. destruct f as [q| |]; [by destruct (Hf q)| |]; simpl; by intros [= <-]. }
  destruct Hk as [-> | ->]; rewrite Hd in *; simplify_eq.
  - simpl. by rewrite (Hnf _ Ho0).
  - simpl. rewrite (Hnf _ Ho2). by rewrite andb_false_r.
Qed.

(** ... and neither can the response dictionary holding it. *)
Lemma shape_result_nonfinite name r v items s k f :
  shape_result name r = Normal v -> dict_get r "segments" PNone = Normal (PList items) ->
  s ∈ items -> k = "start" \/ k = "end" ->
  dict_get s k (PFloat (FFin 0)) = Normal (PFloat f) -> (forall q, f <> FFin q) ->
  json_ok v = false.
Proof.
  intros Hv Hi Hs Hk Hd Hf.
  destruct (shape_result_inv _ _ _ Hv) as (text & lang & items' & segs & -> & _ & Hsegs & Hl).
  rewrite <- (Hl _ Hi) in Hs. apply list_elem_of_lookup in Hs as [j Hj].
  destruct (Forall2_lookup_l _ _ _ _ _ Hsegs Hj) as (s' & Hj' & Hs').
  pose proof (shape_segment_nonfinite _ _ _ _ Hs' Hk Hd Hf) as Hbad.
  simpl. destruct (forallb json_ok segs) eqn:E; [|by rewrite !andb_false_r].
  rewrite forallb_forall in E. rewrite E in Hbad; [done|].
  apply list_elem_of_In. by eapply list_elem_of_lookup_2.
Qed.

(** The segments list [shape_result] builds validates. *)
Lemma shape_segments_valid items segs :
  Forall2 (fun x y => shape_segment x = Normal y) items segs ->
  is_Some (mapM (validate_Segment float_of_str) segs).
Proof.
  intros Hsegs. apply mapM_is_Some.
  induction Hsegs as [|x y items segs Hxy _ IH]; constructor; [|done].
  destruct (shape_segment_valid _ _ Hxy) as (r & Hr & _). by eexists.
Qed.

(** ... and dumping the validated segments gives them back when
    whisper's times were floats. *)
Lemma shape_segments_dump items segs :
  Forall2 (fun x y => shape_segment x = Normal y) items segs ->
  forallb seg_times_float items = true ->
  exists rs, mapM (validate_Segment float_of_str) segs = Some rs /\ dump_Segment <$> rs = segs.
Proof.
  intros Hsegs Hf. apply mapM_inverse.
  induction Hsegs as [|x y items segs Hxy _ IH]; simpl in Hf; [constructor|].
  apply andb_prop in Hf as [Hx Hf]. constructor; [|by apply IH].
  destruct (shape_segment_valid _ _ Hxy) as (r & Hr & Hd). eauto.
Qed.
End Lemmas.

(** ** The schema and the service *)

Section Conformance.
Context (float_of_str : string -> option pyfloat).

(** Validating the dump of a [TranscriptionResponse] gives it back:
    [TranscriptionResponse.model_validate(r.model_dump()) == r]. *)
Lemma validate_dump_roundtrip r :
  validate_TranscriptionResponse float_of_str (dump_TranscriptionResponse r) = Some r.
Proof.
  destruct r as [t l segs m]. simpl.
  rewrite (mapM_fmap_Some _ _ _ (validate_Segment_dump float_of_str)). by destruct l.
Qed.

(** The shaped response validates exactly when the language is [None] or a string. *)
Lemma shape_result_validates name result v lang :
  shape_result name result = Normal v ->
  dict_get result "language" PNone = Normal lang ->
  is_Some (validate_TranscriptionResponse float_of_str v) <-> is_optional_str lang = true.
Proof.
  intros Hs Hl.
  destruct (shape_result_inv _ _ _ Hs) as (t & lang' & items & segs & -> & Hl' & Hsegs & _).
  rewrite Hl in Hl'. injection Hl' as <-.
  destruct (shape_segments_valid float_of_str _ _ Hsegs) as [rs Hrs].
  simpl. rewrite Hrs. destruct lang; simpl; split; intros H; try done; by inversion H.
Qed.

(** C17: The dictionary [transcribe_bytes] returns is a valid
    [TranscriptionResponse] exactly when whisper's ["language"] is
    [None], absent, or a string: the other fields always conform. *)
Theorem shape_result_conforms name result v lang :
  shape_result name result = Normal v ->
  dict_get result "language" PNone = Normal lang ->
  is_Some (validate_TranscriptionResponse float_of_str v) <-> is_optional_str lang = true.
Proof. apply shape_result_validates. Qed.

(** C18: Returning the dictionary in a [JSONResponse], as [transcribe]
    does, sends the same body as FastAPI's [response_model]
    serialisation would, when whisper's language is [None] or a string
    and its segment times are floats. *)
Theorem shape_result_serialize name result v lang items :
  shape_result name result = Normal v ->
  dict_get result "language" PNone = Normal lang -> is_optional_str lang = true ->
  dict_get result "segments" PNone = Normal (PList items) ->
  forallb seg_times_float items = true ->
  serialize_response float_of_str v = Some v.
Proof.
  intros Hs Hl Hlang Hitems Hf.
  destruct (shape_result_inv _ _ _ Hs) as (t & lang' & items' & segs & -> & Hl' & Hsegs & Hi).
  rewrite Hl in Hl'. injection Hl' as <-. rewrite <- (Hi _ Hitems) in Hf.
  destruct (shape_segments_dump float_of_str _ _ Hsegs Hf) as (rs & Hrs & Hd).
  unfold serialize_response. simpl. rewrite Hrs. destruct lang; try done; unfold dump_TranscriptionResponse; simpl; by rewrite Hd.
Qed.
End Conformance.

(** ** Witnesses *)

(** The response shaped from the toy model's result. *)
Definition toy_shaped : pyval :=
  match shape_result "base" (toy_result (FFin 0)) with Normal v => v | Raised _ => PNone end.

Lemma shape_result_conforms_witness :
  is_Some (validate_TranscriptionResponse (fun _ => None) toy_shaped) <->
    is_optional_str (PStr "en") = true.
Proof. apply (shape_result_conforms (fun _ => None) "base" (toy_result (FFin 0))); reflexivity. Defined.

Lemma shape_result_serialize_witness :
  serialize_response (fun _ => None) toy_shaped = Some toy_shaped.
Proof.
  apply (shape_result_serialize (fun _ => None) "base" (toy_result (FFin 0)) _ (PStr "en")
           [PDict [("id", PInt 0); ("start", PFloat (FFin 0)); ("end", PFloat (FFin (1520 # 1000)));
                   ("text", PStr " hello world ")]]); reflexivity.
Defined.

(** A result whose language is not a string gives a response that
    does not conform to [TranscriptionResponse]. *)
Example shape_result_bad_language :
  obind (shape_result "base" (PDict [("text", PStr "hi"); ("language", PInt 1)]))
        (fun v => Normal (validate_TranscriptionResponse (fun _ => None) v)) = Normal None.
Proof. reflexivity. Qed.
