(* ===== verification/Service.v ===== *)
(** * [src/app/main.py]: the FastAPI service

    - [App] is the process state: the global [_transcriber] (line 12)
      and the [World] the libraries act on.  [MODEL_NAME] (line 11) is
      read once from the environment at import.
    - [startup_event] (lines 14-22), [health] (lines 24-27) and
      [transcribe] (lines 29-44) are the three functions of the module,
      in the [PyM] monad over [App].
    - [handle] is what FastAPI does around a handler: it routes the
      request and renders an escaping [HTTPException] as
      [{"detail": ...}] with its status code.  [JSONResponse] renders
      with [allow_nan=False] ([json_response]).  Because [transcribe]
      returns a [Response] object, FastAPI does not validate it against
      [response_model].
    - [step_app] runs one event of the process (startup, a request, or a
      change of the world by another process); [reachable] is the set of
      states a process reaches from its start. *)

From stdpp Require Import base list gmap strings.
From Stdlib Require Import ZArith QArith String.
From Stdlib.Init Require Import Byte.
From S2P Require Import Prelude PyStr PyRound PyValue Backend Transcriber Schemas.

(** [MODEL_NAME = os.environ.get("WHISPER_MODEL", "base")] *)
Definition MODEL_NAME (environ : gmap string string) : string :=
  default "base" (environ !! "WHISPER_MODEL").

(** An HTTP response: status code and JSON body. *)
Record http_response : Type := mk_response { status : Z; body : pyval }.

(** [fastapi.UploadFile] *)
Record UploadFile : Type := mk_upload {
  upload_filename : option string;
  upload_content_type : option string;
  upload_data : list byte
}.

Inductive request : Type :=
| GetHealth                         (** [GET /health] *)
| PostTranscribe (file : UploadFile). (** [POST /transcribe] *)

Section Service.
Context `{Backend}.

Record App : Type := mkApp {
  transcriber : option Transcriber;   (** the global [_transcriber] *)
  world : World
}.

(** Run a library computation on the world of the process. *)
Definition on_world {A} (m : PyM World pyexc A) : PyM App pyexc A :=
  lift_state world (fun w a => mkApp (transcriber a) w) m.
End Service.

(** Execute a handler: unfold the combinators and the lifting to the
    world. *)
Ltac app_unfold := unfold on_world in *; pym_unfold; cbn [transcriber world] in *.

Section Handlers.
Context `{Backend}.

(** [@app.on_event("startup") startup_event()] *)
Definition startup_event (model_name : string) : PyM App pyexc unit :=
  on_world (log INFO "Starting service, loading model %s") ;;;
  ptry (let* t := on_world (Transcriber_init model_name) in
        pmodify (fun a => mkApp (Some t) (world a)))
       (fun _ => on_world (log ERROR "Failed to initialize transcriber: %s")).

(** [_transcriber is not None and _transcriber.ready] *)
Definition is_ready (a : App) : bool :=
  match transcriber a with Some t => ready t | None => false end.

(** [@app.get("/health") health()] *)
Definition health (model_name : string) : PyM App pyexc pyval :=
  let* a := pget in
  let rdy := is_ready a in
  pret (PDict [("status", PStr (if rdy then "ok" else "starting"));
               ("model", if rdy then PStr model_name else PNone)]).

(** [JSONResponse(content=result)]: rendering raises [ValueError] on a
    non-finite float. *)
Definition json_response (content : pyval) : PyM App pyexc http_response :=
  if json_ok content then pret (mk_response 200 content) else praise ValueError.

(** The [try] block of [transcribe] (lines 35-38) and its two [except]
    clauses (lines 39-44). *)
Definition transcribe_try (t : Transcriber) (file : UploadFile) : PyM App pyexc http_response :=
  ptry (let* data := pret (upload_data file) in
        let* result := on_world (transcribe_bytes t data (upload_filename file)) in
        json_response result)
       (fun e =>
          if is_TranscriptionError e then
            on_world (log WARNING "Transcription error: %s") ;;;
            praise (HTTPException 400 (exc_str e))
          else
            on_world (log ERROR "Unexpected error during transcription: %s") ;;;
            praise (HTTPException 500 "Internal server error")).

(** [@app.post("/transcribe") async transcribe(file)] *)
Definition transcribe (file : UploadFile) : PyM App pyexc http_response :=
  let* a := pget in
  match transcriber a with
  | Some t =>
      if ready t then
        let content_type := default "" (upload_content_type file) in
        on_world (log INFO "Received file: filename=%s content_type=%s") ;;;
        transcribe_try t file
      else praise (HTTPException 503 "Transcription model not ready")
  | None => praise (HTTPException 503 "Transcription model not ready")
  end.

(** FastAPI's handler for an escaping exception: an [HTTPException]
    becomes [{"detail": detail}] with its status; anything else is a
    plain 500 from Starlette's error middleware. *)
Definition exception_response (e : pyexc) : http_response :=
  match e with
  | HTTPException code detail => mk_response code (PDict [("detail", PStr detail)])
  | _ => mk_response 500 (PStr "Internal Server Error")
  end.

(** Routing of a request to its handler. *)
Definition handle (model_name : string) (r : request) : PyM App pyexc http_response :=
  match r with
  | GetHealth => let* b := health model_name in pret (mk_response 200 b)
  | PostTranscribe file => ptry (transcribe file) (fun e => pret (exception_response e))
  end.

(** ** The process *)

Inductive event : Type :=
| Startup                          (** the startup hook runs *)
| Request (r : request)            (** a request is served *)
| External (w : World).            (** another process changes the world *)

(** One event; a request yields the response sent to the client. *)
Definition step_app (model_name : string) (ev : event) (a : App)
    : App * option http_response :=
  match ev with
  | Startup => ((startup_event model_name a).2, None)
  | Request r =>
      let '(o, a') := handle model_name r a in
      (a', match o with Normal resp => Some resp | Raised _ => None end)
  | External w => (mkApp (transcriber a) w, None)
  end.

(** The states a process started in world [w0] reaches. *)
Inductive reachable (model_name : string) : App -> Prop :=
| reach_init w0 : reachable model_name (mkApp None w0)
| reach_step a ev : reachable model_name a -> reachable model_name (step_app model_name ev a).1.

(** ** Execution lemmas *)

(** The [try] block of [transcribe] and its [except] clauses, run. *)
Lemma transcribe_try_eq t file a :
  transcribe_try t file a =
    match transcribe_bytes t (upload_data file) (upload_filename file) (world a) with
    | (Normal v, w) =>
        if json_ok v then (Normal (mk_response 200 v), mkApp (transcriber a) w)
        else (Raised (HTTPException 500 "Internal server error"),
              mkApp (transcriber a)
                (add_log (mk_log ERROR "Unexpected error during transcription: %s") w))
    | (Raised e, w) =>
        if is_TranscriptionError e then
          (Raised (HTTPException 400 (exc_str e)),
           mkApp (transcriber a) (add_log (mk_log WARNING "Transcription error: %s") w))
        else (Raised (HTTPException 500 "Internal server error"),
              mkApp (transcriber a)
                (add_log (mk_log ERROR "Unexpected error during transcription: %s") w))
    end.
Proof.
  unfold transcribe_try, json_response, log. app_unfold.
  destruct (transcribe_bytes _ _ _ _) as [[v|e] w]; pym_unfold.
  - by destruct (json_ok v).
  - by destruct (is_TranscriptionError e).
Qed.

(** A request to a ready service: the INFO record, then the [try]. *)
Lemma transcribe_ready_eq t file a :
  transcriber a = Some t -> ready t = true ->
  transcribe file a =
    transcribe_try t file
      (mkApp (Some t)
         (add_log (mk_log INFO "Received file: filename=%s content_type=%s") (world a))).
Proof.
  intros Ht Hr. destruct a as [tr w]. simpl in Ht. subst tr.
  unfold transcribe, log. app_unfold. by rewrite Hr.
Qed.

(** Whatever the outcome of [transcribe], FastAPI answers. *)
Lemma handle_transcribe_eq model_name file a :
  handle model_name (PostTranscribe file) a =
    match transcribe file a with
    | (Normal r, a') => (Normal r, a')
    | (Raised e, a') => (Normal (exception_response e), a')
    end.
Proof. unfold handle, ptry. by destruct (transcribe file a) as [[]]. Qed.

(** [GET /health] answers from the readiness of the state and changes
    nothing. *)
Lemma handle_health_eq model_name a :
  handle model_name GetHealth a =
    (Normal (mk_response 200 (PDict [("status", PStr (if is_ready a then "ok" else "starting"));
                                    ("model", if is_ready a then PStr model_name else PNone)])),
     a).
Proof. reflexivity. Qed.

(** ** Readiness *)

(** C1: Before the model is loaded, [POST /transcribe] answers 503 with
    detail "Transcription model not ready", and neither the global
    state, the file system nor the log changes. *)
Theorem transcribe_not_ready_503 model_name file a :
  is_ready a = false ->
  handle model_name (PostTranscribe file) a =
    (Normal (mk_response 503 (PDict [("detail", PStr "Transcription model not ready")])), a).
Proof.
  unfold is_ready. intros Hr. rewrite handle_transcribe_eq. unfold transcribe. app_unfold.
  destruct (transcriber a) as [t|]; [by rewrite Hr | done].
Qed.

(** No request changes the global [_transcriber]. *)
Lemma handle_transcriber model_name r a :
  transcriber (handle model_name r a).2 = transcriber a.
Proof.
  destruct r as [|file]; [done|]. rewrite handle_transcribe_eq.
  unfold transcribe. pym_unfold.
  destruct (transcriber a) as [t|] eqn:Ht; [|done]. destruct (ready t) eqn:Hr; [|done].
  unfold on_world, log. pym_unfold. rewrite transcribe_try_eq. simpl.
  destruct (transcribe_bytes _ _ _ _) as [[v|e] w]; [destruct (json_ok v)|destruct (is_TranscriptionError e)];
    simpl; by rewrite Ht.
Qed.

Lemma startup_transcriber model_name a :
  (startup_event model_name a).1 = Normal tt /\
  transcriber (startup_event model_name a).2 =
    match load_model model_name with
    | Some m => Some (mkTranscriber model_name m true)
    | None => transcriber a
    end.
Proof.
  unfold startup_event, log. app_unfold.
  destruct (load_model model_name) as [m|] eqn:Hm.
  - rewrite Transcriber_init_ok with (m := m) by done. by pym_unfold.
  - rewrite Transcriber_init_fail by done. by pym_unfold.
Qed.

(** The response and the log record of [POST /transcribe] on a ready
    service, by the outcome of [transcribe_bytes]. *)
Definition transcribe_response (o : outcome pyexc pyval) : http_response :=
  match o with
  | Normal v =>
      if json_ok v then mk_response 200 v
      else mk_response 500 (PDict [("detail", PStr "Internal server error")])
  | Raised e =>
      if is_TranscriptionError e then mk_response 400 (PDict [("detail", PStr (exc_str e))])
      else mk_response 500 (PDict [("detail", PStr "Internal server error")])
  end.

Definition transcribe_log (o : outcome pyexc pyval) (w : World) : World :=
  match o with
  | Normal v =>
      if json_ok v then w
      else add_log (mk_log ERROR "Unexpected error during transcription: %s") w
  | Raised e =>
      if is_TranscriptionError e then add_log (mk_log WARNING "Transcription error: %s") w
      else add_log (mk_log ERROR "Unexpected error during transcription: %s") w
  end.

Lemma handle_post_ready model_name file a t :
  transcriber a = Some t -> ready t = true ->
  let '(o, w) := transcribe_bytes t (upload_data file) (upload_filename file)
                   (add_log (mk_log INFO "Received file: filename=%s content_type=%s") (world a)) in
  handle model_name (PostTranscribe file) a =
    (Normal (transcribe_response o), mkApp (Some t) (transcribe_log o w)).
Proof.
  intros Ht Hr. rewrite handle_transcribe_eq, (transcribe_ready_eq t) by done.
  rewrite transcribe_try_eq. cbn [world transcriber].
  unfold transcribe_response, transcribe_log.
  destruct (transcribe_bytes _ _ _ _) as [[v|e] w];
    [destruct (json_ok v) | destruct (is_TranscriptionError e)]; done.
Qed.

(** [transcribe] on a service that is not ready raises the 503
    [HTTPException] and changes nothing. *)
Lemma transcribe_not_ready file a :
  is_ready a = false ->
  transcribe file a = (Raised (HTTPException 503 "Transcription model not ready"), a).
Proof.
  unfold is_ready, transcribe. intros Hr. app_unfold.
  destruct (transcriber a) as [t|]; [by rewrite Hr | done].
Qed.

Lemma transcribe_log_fs o w : fs (transcribe_log o w) = fs w.
Proof.
  unfold transcribe_log.
  by destruct o as [v|e]; [destruct (json_ok v) | destruct (is_TranscriptionError e)].
Qed.

(** ** Startup and the reachable states *)

(** The global transcriber of a reachable state, once set, is ready and holds the configured model name. *)
Lemma reachable_transcriber model_name a t :
  reachable model_name a -> transcriber a = Some t ->
  ready t = true /\ Transcriber.model_name t = model_name.
Proof.
  intros Hreach. revert t. induction Hreach as [w0|a ev Hreach IH]; intros t; [done|].
  destruct ev as [|r|w]; simpl.
  - destruct (startup_transcriber model_name a) as [_ ->].
    destruct (load_model model_name); [by intros [= <-] | apply IH].
  - destruct (handle model_name r a) as [o a'] eqn:E. simpl.
    pose proof (handle_transcriber model_name r a) as Ht. rewrite E in Ht. simpl in Ht.
    rewrite Ht. apply IH.
  - apply IH.
Qed.

(** C2: In every state a process reaches, the global transcriber, once
    set, is ready and holds the configured model name. *)
Theorem reachable_ready_invariant model_name a t :
  reachable model_name a -> transcriber a = Some t ->
  ready t = true /\ Transcriber.model_name t = model_name.
Proof. apply reachable_transcriber. Qed.

(** C4: A failed model load at startup is caught: the hook returns
    normally, the service stays not ready, health reports
    ["starting"] with no model, and [POST /transcribe] answers 503. *)
Theorem startup_failure_not_ready model_name file w0 :
  load_model model_name = None ->
  exists a, startup_event model_name (mkApp None w0) = (Normal tt, a) /\
    transcriber a = None /\
    (handle model_name GetHealth a).1 =
      Normal (mk_response 200 (PDict [("status", PStr "starting"); ("model", PNone)])) /\
    (handle model_name (PostTranscribe file) a).1 =
      Normal (mk_response 503 (PDict [("detail", PStr "Transcription model not ready")])).
Proof.
  intros Hm. pose proof (startup_transcriber model_name (mkApp None w0)) as [Hok Ht].
  destruct (startup_event model_name (mkApp None w0)) as [o a] eqn:E. cbn [fst snd] in *.
  rewrite Hm in Ht. subst o. exists a. split_and!; [done | done | |].
  - unfold handle, health, is_ready. app_unfold. by rewrite Ht.
  - rewrite handle_transcribe_eq. unfold transcribe. app_unfold. by rewrite Ht.
Qed.

(** C5: After a successful startup, health reports ["ok"] with the model
    name, and the global transcriber holds the loaded model. *)
Theorem startup_success_ready model_name m a :
  load_model model_name = Some m ->
  exists a', startup_event model_name a = (Normal tt, a') /\
    transcriber a' = Some (mkTranscriber model_name m true) /\
    (handle model_name GetHealth a').1 =
      Normal (mk_response 200 (PDict [("status", PStr "ok"); ("model", PStr model_name)])).
Proof.
  intros Hm. pose proof (startup_transcriber model_name a) as [Hok Ht].
  destruct (startup_event model_name a) as [o a'] eqn:E. cbn [fst snd] in *.
  rewrite Hm in Ht. subst o. exists a'. split_and!; [done | done |].
  unfold handle, health, is_ready. app_unfold. by rewrite Ht.
Qed.

(** ** Error mapping *)

(** C6: An upload pydub cannot decode is a client error: 400 with detail
    "Unsupported or corrupt audio format", and no file is left behind. *)
Theorem unsupported_format_400 model_name file a t :
  transcriber a = Some t -> ready t = true -> from_file (upload_data file) = None ->
  exists a', handle model_name (PostTranscribe file) a =
      (Normal (mk_response 400 (PDict [("detail", PStr msg_unsupported)])), a') /\
    fs (world a') = fs (world a).
Proof.
  intros Ht Hr Hf. pose proof (handle_post_ready model_name file a t Ht Hr) as Hp.
  rewrite transcribe_bytes_unsupported in Hp by done. rewrite Hp. by eexists.
Qed.

(** A property of the file system that holds before a request, and after
    [transcribe_bytes] on the world the request logs into, holds after
    the request: outside [transcribe_bytes] no request touches a file. *)
Lemma handle_fs_lift model_name r a (P : gmap string (list byte) -> Prop) :
  P (fs (world a)) ->
  (forall t data filename lvl msg,
     P (fs (transcribe_bytes t data filename (add_log (mk_log lvl msg) (world a))).2)) ->
  P (fs (world (handle model_name r a).2)).
Proof.
  intros H0 Ht. destruct r as [|file]; [done|].
  destruct (is_ready a) eqn:Hr.
  - unfold is_ready in Hr. destruct (transcriber a) as [t|] eqn:Htr; [|done].
    pose proof (handle_post_ready model_name file a t Htr Hr) as Hp.
    pose proof (Ht t (upload_data file) (upload_filename file) INFO
                  "Received file: filename=%s content_type=%s") as Hfs.
    destruct (transcribe_bytes _ _ _ _) as [o w]. rewrite Hp. simpl.
    by rewrite transcribe_log_fs.
  - by rewrite handle_transcribe_eq, transcribe_not_ready.
Qed.

(** C8: Temporary files never outlive a request, when the disk has room and
    the WAV encoder does not fail: the file system after any request is
    the one before it. *)
Theorem request_no_leak model_name r a :
  disk_full (world a) = false -> (forall au, wav_encode au <> None) ->
  fs (world (handle model_name r a).2) = fs (world a).
Proof.
  intros Hd He. apply handle_fs_lift; [done|].
  intros. rewrite transcribe_bytes_fs_restored; done.
Qed.

(** C16: No request modifies or deletes a file that existed before it,
    whatever the libraries do: the file system after any request is the
    one before it, or that one with a single new empty file at a path
    that was free (the temporary file left when writing it failed). *)
Theorem request_fs_safe model_name r a :
  fs (world (handle model_name r a).2) = fs (world a) \/
  exists p, fs (world a) !! p = None /\
            fs (world (handle model_name r a).2) = <[p := []]> (fs (world a)).
Proof.
  apply handle_fs_lift; [by left|]. intros t data filename lvl msg.
  exact (transcribe_bytes_fs_cases t data filename _).
Qed.

(** C7: Where the spec asks for 500, the code answers 400: when the model
    raises on a well-formed upload (the input decodes, the disk has
    room, a temporary name is free), [transcribe_bytes] converts the
    failure into a [TranscriptionError], which [main.py] maps to 400
    with detail "Transcription failed". *)
Theorem model_failure_400 model_name file a t a0 a1 a2 bytes (i : nat) :
  transcriber a = Some t -> ready t = true ->
  from_file (upload_data file) = Some a0 -> set_channels a0 1 = Some a1 ->
  set_frame_rate a1 16000 = Some a2 -> wav_encode a2 = Some bytes ->
  disk_full (world a) = false -> (i < TMP_MAX)%nat ->
  fs (world a) !! tmp_path (tmp_name (tmp_seq (world a) + i)) ".wav" = None ->
  model_transcribe (model t) bytes = None ->
  (handle model_name (PostTranscribe file) a).1 =
    Normal (mk_response 400 (PDict [("detail", PStr msg_failed)])).
Proof.
  intros Ht Hr Hf Hc Hfr He Hd Hi Hfree Hm.
  pose proof (handle_post_ready model_name file a t Ht Hr) as Hp.
  set (w := add_log _ (world a)) in Hp.
  destruct (ensure_wav_runs (upload_data file) w a0 a1 a2 bytes i) as (p & w1 & E & Hfs);
    try done.
  rewrite (transcribe_bytes_after_wav t _ _ w p w1 bytes E Hfs) in Hp.
  rewrite (run_model_cases t p w1 bytes) in Hp by (rewrite Hfs; apply lookup_insert_eq).
  rewrite Hm in Hp. by rewrite Hp.
Qed.

(** C15: A NaN or infinite start or end time in a segment of whisper's
    result survives [round(.., 3)] and the shaping of the response, and
    makes [JSONResponse] raise [ValueError] while rendering it: when the
    rest of the result shapes, the client gets a 500. *)
Theorem nan_timestamp_500 model_name file a t a0 a1 a2 bytes (i : nat) r v items s k f :
  transcriber a = Some t -> ready t = true ->
  from_file (upload_data file) = Some a0 -> set_channels a0 1 = Some a1 ->
  set_frame_rate a1 16000 = Some a2 -> wav_encode a2 = Some bytes ->
  disk_full (world a) = false -> (i < TMP_MAX)%nat ->
  fs (world a) !! tmp_path (tmp_name (tmp_seq (world a) + i)) ".wav" = None ->
  model_transcribe (model t) bytes = Some r ->
  dict_get r "segments" PNone = Normal (PList items) -> s ∈ items ->
  k = "start" \/ k = "end" -> dict_get s k (PFloat (FFin 0)) = Normal (PFloat f) ->
  (forall q, f <> FFin q) ->
  shape_result (Transcriber.model_name t) r = Normal v ->
  (handle model_name (PostTranscribe file) a).1 =
    Normal (mk_response 500 (PDict [("detail", PStr "Internal server error")])).
Proof.
  intros Ht Hr Hf Hc Hfr He Hd Hi Hfree Hm Hsegs Hs Hk Hsk Hnf Hv.
  pose proof (handle_post_ready model_name file a t Ht Hr) as Hp.
  set (w := add_log _ (world a)) in Hp.
  destruct (ensure_wav_runs (upload_data file) w a0 a1 a2 bytes i) as (p & w1 & E & Hfs);
    try done.
  rewrite (transcribe_bytes_after_wav t _ _ w p w1 bytes E Hfs) in Hp.
  rewrite (run_model_cases t p w1 bytes) in Hp by (rewrite Hfs; apply lookup_insert_eq).
  rewrite Hm, Hv in Hp. rewrite Hp. simpl.
  by rewrite (shape_result_nonfinite _ _ _ _ _ _ _ Hv Hsegs Hs Hk Hsk Hnf).
Qed.

(** C11: A 500 carries only the generic detail "Internal server error", and
    the last log record is the ERROR record written with the exception. *)
Theorem internal_error_500_hides_detail model_name r a resp a' :
  handle model_name r a = (Normal resp, a') -> status resp = 500%Z ->
  body resp = PDict [("detail", PStr "Internal server error")] /\
  last (logs (world a')) = Some (mk_log ERROR "Unexpected error during transcription: %s").
Proof.
  destruct r as [|file]; [by intros [= <- _]|].
  destruct (is_ready a) eqn:Hr.
  - unfold is_ready in Hr. destruct (transcriber a) as [t|] eqn:Ht; [|done].
    pose proof (handle_post_ready model_name file a t Ht Hr) as Hp.
    destruct (transcribe_bytes _ _ _ _) as [o w]. rewrite Hp. intros [= <- <-].
    unfold transcribe_response, transcribe_log. cbn [world logs].
    destruct o as [v|e]; [destruct (json_ok v) | destruct (is_TranscriptionError e)];
      simpl; try done; intros _; by rewrite last_snoc.
  - rewrite handle_transcribe_eq, transcribe_not_ready by done. by intros [= <- _].
Qed.

(** Serving requests in sequence. *)
Definition serve_all (model_name : string) (rs : list request) (a : App) : App :=
  fold_left (fun a r => (handle model_name r a).2) rs a.

(** No sequence of requests changes the global transcriber. *)
Lemma serve_all_transcriber model_name rs a :
  transcriber (serve_all model_name rs a) = transcriber a.
Proof.
  unfold serve_all. revert a. induction rs as [|r rs IH]; intros a; [done|].
  simpl. by rewrite IH, handle_transcriber.
Qed.
End Handlers.

(** ** Witnesses on the toy backend *)

(** The process after its startup hook loaded model [name]. *)
Definition app_started (name : string) : @App ToyBackend :=
  (startup_event name (mkApp None world0)).2.

Definition upload (data : list byte) : UploadFile := mk_upload (Some "hello.m4a") None data.

Lemma transcribe_not_ready_503_witness :
  is_ready (mkApp None world0) = false /\
  handle "base" (PostTranscribe (upload [x01])) (mkApp None world0) =
    (Normal (mk_response 503 (PDict [("detail", PStr "Transcription model not ready")])),
     mkApp None world0).
Proof. split; [reflexivity | apply transcribe_not_ready_503; reflexivity]. Defined.

Lemma reachable_ready_invariant_witness :
  reachable "base" (app_started "base") /\
  transcriber (app_started "base") = Some (toy_transcriber "base") /\
  ready (toy_transcriber "base") = true /\
  Transcriber.model_name (toy_transcriber "base") = "base".
Proof.
  assert (Hr : reachable "base" (app_started "base")).
  { apply (reach_step "base" (mkApp None world0) Startup), reach_init. }
  assert (Ht : transcriber (app_started "base") = Some (toy_transcriber "base")).
  { vm_compute. reflexivity. }
  split_and!; [exact Hr | exact Ht | |];
    apply (reachable_ready_invariant "base" (app_started "base")); assumption.
Defined.

Lemma startup_failure_not_ready_witness :
  load_model (Backend := ToyBackend) "broken" = None /\
  exists a, startup_event "broken" (mkApp None world0) = (Normal tt, a) /\
    transcriber a = None /\
    (handle "broken" GetHealth a).1 =
      Normal (mk_response 200 (PDict [("status", PStr "starting"); ("model", PNone)])) /\
    (handle "broken" (PostTranscribe (upload [x01])) a).1 =
      Normal (mk_response 503 (PDict [("detail", PStr "Transcription model not ready")])).
Proof. split; [reflexivity | apply startup_failure_not_ready; reflexivity]. Defined.

Lemma startup_success_ready_witness :
  load_model (Backend := ToyBackend) "base" = Some true /\
  exists a', startup_event "base" (mkApp None world0) = (Normal tt, a') /\
    transcriber a' = Some (toy_transcriber "base") /\
    (handle "base" GetHealth a').1 =
      Normal (mk_response 200 (PDict [("status", PStr "ok"); ("model", PStr "base")])).
Proof. split; [reflexivity | apply startup_success_ready; reflexivity]. Defined.

Lemma unsupported_format_400_witness :
  exists a', handle "base" (PostTranscribe (upload [])) (app_started "base") =
    (Normal (mk_response 400 (PDict [("detail", PStr msg_unsupported)])), a') /\
    fs (world a') = fs (world (app_started "base")).
Proof.
  apply (unsupported_format_400 _ _ _ (toy_transcriber "base"));
    vm_compute; reflexivity.
Defined.

Lemma model_failure_400_witness :
  (handle "faulty" (PostTranscribe (upload [x01])) (app_started "faulty")).1 =
    Normal (mk_response 400 (PDict [("detail", PStr msg_failed)])).
Proof.
  apply (model_failure_400 "faulty" (upload [x01]) (app_started "faulty")
           (toy_transcriber "faulty")
           (mk_toy_audio 2 44100 [x01]) (mk_toy_audio 1 44100 [x01])
           (mk_toy_audio 1 16000 [x01]) [x01] 0); first [exact TMP_MAX_pos | vm_compute; reflexivity].
Defined.

Lemma nan_timestamp_500_witness :
  (handle "base" (PostTranscribe (upload [xff])) (app_started "base")).1 =
    Normal (mk_response 500 (PDict [("detail", PStr "Internal server error")])).
Proof.
  apply (nan_timestamp_500 "base" (upload [xff]) (app_started "base")
           (toy_transcriber "base")
           (mk_toy_audio 2 44100 [xff]) (mk_toy_audio 1 44100 [xff])
           (mk_toy_audio 1 16000 [xff]) [xff] 0 (toy_result FNaN)
           (match shape_result "base" (toy_result FNaN) with Normal v => v | Raised _ => PNone end)
           [PDict [("id", PInt 0); ("start", PFloat FNaN); ("end", PFloat (FFin (1520 # 1000)));
                   ("text", PStr " hello world ")]]
           (PDict [("id", PInt 0); ("start", PFloat FNaN); ("end", PFloat (FFin (1520 # 1000)));
                   ("text", PStr " hello world ")])
           "start" FNaN);
    first [exact TMP_MAX_pos | by left | by intros q | by left; reflexivity
          | vm_compute; reflexivity].
Defined.

Lemma internal_error_500_hides_detail_witness :
  let '(o, a') := handle "base" (PostTranscribe (upload [xff])) (app_started "base") in
  body (mk_response 500 (PDict [("detail", PStr "Internal server error")])) =
    PDict [("detail", PStr "Internal server error")] /\
  last (logs (world a')) = Some (mk_log ERROR "Unexpected error during transcription: %s").
Proof.
  destruct (handle "base" (PostTranscribe (upload [xff])) (app_started "base")) as [o a'] eqn:E.
  apply (internal_error_500_hides_detail "base" (PostTranscribe (upload [xff]))
           (app_started "base")); [|reflexivity].
  rewrite E. revert E. vm_compute. intros E. injection E as <- <-. reflexivity.
Defined.

Lemma request_no_leak_witness :
  fs (world (handle "base" (PostTranscribe (upload [x01])) (app_started "base")).2) =
    fs (world (app_started "base")).
Proof. apply request_no_leak; [reflexivity | intros au; discriminate]. Defined.
