(* ===== verification/ServiceSpec.v ===== *)
(** * The service's contract, and the refinement the code satisfies

    Section 4.3 of the spec describes the service as a state machine
    [NOT_STARTED -> LOADING -> READY | FAILED], with [FAILED] terminal,
    [health()] reporting ["ok"] and the model name exactly in [READY],
    and [transcribe] answering 503 outside [READY].  [Spec] states this
    contract; [LOADING] lasts only while the startup hook runs, between
    two events, so the abstract machine has no state for it.

    The code has no phase variable: [refines] relates a phase to the
    global [_transcriber] ([Some] of a ready transcriber of the configured
    model exactly in [Ready]).  [lifecycle_refines] shows that a FastAPI
    process (the startup hook at most once, then any requests) stays
    related to the phase the spec prescribes, and that its health and
    not-ready answers are the spec's.

    Section 7's taxonomy is [Spec.failure], and [Spec.answer] the
    response it prescribes for each kind.  [classify] reads the kind of
    a request off its causes (what pydub, tempfile, the disk, whisper
    and the JSON encoder do), not off the handler;
    [transcribe_refines_taxonomy] shows the handler gives every kind the
    spec's answer except [InferenceError], which it answers 400. *)

From stdpp Require Import base list gmap strings.
From Stdlib Require Import ZArith QArith String.
From Stdlib.Init Require Import Byte.
From S2P Require Import Prelude PyValue Backend Transcriber Service.

Module Spec.
Inductive phase : Type := NotStarted | Ready | Failed.

(** The startup transition: [LOADING] ends in [READY] or [FAILED];
    [FAILED] is terminal. *)
Definition startup (loaded : bool) (p : phase) : phase :=
  match p with
  | NotStarted => if loaded then Ready else Failed
  | q => q
  end.

(** [health()] *)
Definition spec_health (model_name : string) (p : phase) : pyval :=
  match p with
  | Ready => PDict [("status", PStr "ok"); ("model", PStr model_name)]
  | _ => PDict [("status", PStr "starting"); ("model", PNone)]
  end.

(** The answer to [transcribe] outside [READY]. *)
Definition not_ready_response : http_response :=
  mk_response 503 (PDict [("detail", PStr "Transcription model not ready")]).

(** Section 7: the failure kinds of a request. *)
Inductive failure : Type := UnsupportedFormat | ServiceNotReady | InferenceError | Unexpected.

(** What a request comes to: the transcription result, or a failure. *)
Inductive result : Type := Success (v : pyval) | Failure (f : failure).

(** Sections 5 and 7: the result as HTTP.  [UnsupportedFormat] is a 400
    with its message, [ServiceNotReady] a 503, and any other failure
    (inference included) a 500 whose detail says nothing of the cause. *)
Definition answer (r : result) : http_response :=
  match r with
  | Success v => mk_response 200 v
  | Failure UnsupportedFormat => mk_response 400 (PDict [("detail", PStr msg_unsupported)])
  | Failure ServiceNotReady => not_ready_response
  | Failure _ => mk_response 500 (PDict [("detail", PStr "Internal server error")])
  end.
End Spec.

#[export] Instance spec_phase_eq_dec : EqDecision Spec.phase.
Proof. solve_decision. Defined.

Section Refinement.
Context `{Backend}.

(** The phase [p] is the phase of the process state [a]. *)
Definition refines (model_name : string) (p : Spec.phase) (a : App) : Prop :=
  match p with
  | Spec.Ready => exists m, transcriber a = Some (mkTranscriber model_name m true)
  | _ => transcriber a = None
  end.

Lemma refines_is_ready model_name p a :
  refines model_name p a -> is_ready a = bool_decide (p = Spec.Ready).
Proof.
  unfold refines, is_ready. destruct p; [by intros -> | by intros [m ->] | by intros ->].
Qed.

(** The process as FastAPI runs it: the startup hook, if it runs, then
    the requests [rs] in order. *)
Definition lifecycle (model_name : string) (started : bool) (rs : list request) (w0 : World)
    : App :=
  serve_all model_name rs
    (if started then (startup_event model_name (mkApp None w0)).2 else mkApp None w0).

Definition lifecycle_phase (model_name : string) (started : bool) : Spec.phase :=
  if started then Spec.startup (bool_decide (is_Some (load_model model_name))) Spec.NotStarted
  else Spec.NotStarted.

(** C3: Forward simulation of the spec's state machine: after an optional
    startup and any requests, the process is in the phase the spec
    prescribes, health answers as the spec says, and outside [READY]
    [POST /transcribe] answers the spec's 503. *)
Theorem lifecycle_refines model_name started rs w0 file :
  let a := lifecycle model_name started rs w0 in
  let p := lifecycle_phase model_name started in
  refines model_name p a /\
  (handle model_name GetHealth a).1 = Normal (mk_response 200 (Spec.spec_health model_name p)) /\
  (p <> Spec.Ready -> (handle model_name (PostTranscribe file) a).1 = Normal Spec.not_ready_response).
Proof.
  intros a p.
  assert (Hr : refines model_name p a).
  { unfold refines, a, p, lifecycle, lifecycle_phase. rewrite serve_all_transcriber.
    destruct started; [|done].
    destruct (startup_transcriber model_name (mkApp None w0)) as [_ ->].
    destruct (load_model model_name) as [m|]; simpl; [by exists m | done]. }
  split_and!; [done | |].
  - simpl. rewrite (refines_is_ready _ _ _ Hr). by destruct p.
  - intros Hp. rewrite handle_transcribe_eq, transcribe_not_ready; [done|].
    rewrite (refines_is_ready _ _ _ Hr). by apply bool_decide_eq_false.
Qed.
End Refinement.

Lemma lifecycle_refines_witness :
  lifecycle_phase (H := ToyBackend) "broken" true = Spec.Failed /\
  (let a := lifecycle "broken" true [GetHealth] world0 in
   let p := lifecycle_phase "broken" true in
   refines "broken" p a /\
   (handle "broken" GetHealth a).1 = Normal (mk_response 200 (Spec.spec_health "broken" p)) /\
   (p <> Spec.Ready ->
    (handle "broken" (PostTranscribe (upload [x01])) a).1 = Normal Spec.not_ready_response)).
Proof.
  split; [reflexivity | apply (lifecycle_refines "broken" true [GetHealth] world0)].
Defined.

(** ** The error taxonomy *)

Section Taxonomy.
Context `{Backend}.

(** The kind a request on a ready transcriber [t] falls in, read off the
    causes the spec names rather than off the handler: input pydub
    cannot decode is [UnsupportedFormat]; a failing conversion, no free
    temporary name, a failing encoder or a full disk is an unexpected
    failure; a model that raises, or returns a result the adapter
    cannot shape, is an [InferenceError]; a result JSON cannot render
    is an unexpected failure; anything else succeeds with the shaped
    result. *)
Definition classify (t : Transcriber) (data : list byte) (w : World) : Spec.result :=
  match from_file data with
  | None => Spec.Failure Spec.UnsupportedFormat
  | Some a0 =>
      match set_channels a0 1 ≫= (fun a1 => set_frame_rate a1 16000) with
      | None => Spec.Failure Spec.Unexpected
      | Some a =>
          match mkstemp_loop TMP_MAX (fs w) (tmp_seq w) ".wav", wav_encode a with
          | Some _, Some bytes =>
              if disk_full w then Spec.Failure Spec.Unexpected else
              match model_transcribe (model t) bytes with
              | Some r =>
                  match shape_result (model_name t) r with
                  | Normal v => if json_ok v then Spec.Success v else Spec.Failure Spec.Unexpected
                  | Raised _ => Spec.Failure Spec.InferenceError
                  end
              | None => Spec.Failure Spec.InferenceError
              end
          | _, _ => Spec.Failure Spec.Unexpected
          end
      end
  end.

(** The kind of a [POST /transcribe] on the process state [a]. *)
Definition classify_request (a : App) (data : list byte) : Spec.result :=
  match transcriber a with
  | Some t => if ready t then classify t data (world a) else Spec.Failure Spec.ServiceNotReady
  | None => Spec.Failure Spec.ServiceNotReady
  end.

(** The answer the code gives to a request of kind [r]: the spec's,
    except that an [InferenceError] is a 400 with its message. *)
Definition code_answer (r : Spec.result) : http_response :=
  match r with
  | Spec.Failure Spec.InferenceError => mk_response 400 (PDict [("detail", PStr msg_failed)])
  | _ => Spec.answer r
  end.

Lemma classify_logs t data w lvl msg : classify t data (add_log (mk_log lvl msg) w) = classify t data w.
Proof. unfold classify. by world_simpl. Qed.

(** [transcribe_bytes] and the [except] clauses of [transcribe] answer
    a request of each kind as [code_answer] says. *)
Lemma transcribe_bytes_classified t data filename w :
  transcribe_response (transcribe_bytes t data filename w).1 = code_answer (classify t data w).
Proof.
  unfold classify. destruct (from_file data) as [a0|] eqn:Hf;
    [|by rewrite transcribe_bytes_unsupported].
  rewrite transcribe_bytes_eq. unfold ensure_wav, lib_call, log, named_temporary_file, export_wav.
  rewrite Hf. pym_unfold.
  destruct (set_channels a0 1) as [a1|]; pym_unfold; [|done]. cbn [mbind option_bind].
  destruct (set_frame_rate a1 16000) as [a|]; pym_unfold; [|done].
  destruct (mkstemp_loop TMP_MAX (fs w) (tmp_seq w) ".wav") as [[p seq']|];
    pym_unfold; [|by destruct (wav_encode a)].
  destruct (wav_encode a) as [bytes|]; pym_unfold; [|done]. world_simpl.
  destruct (disk_full w); pym_unfold; [done|]. world_simpl.
  rewrite run_model_cases with (bytes := bytes) by apply lookup_insert_eq.
  unfold unlink_quietly, os_unlink. pym_unfold.
  destruct (model_transcribe _ _); [destruct (shape_result _ _)|]; cbv beta iota;
    world_simpl; rewrite lookup_insert_eq; unfold transcribe_response;
    [destruct (json_ok _)| |]; done.
Qed.
(** The handler answers every [POST /transcribe] as [code_answer] says
    of its kind. *)
Lemma handle_post_classified model_name file a :
  (handle model_name (PostTranscribe file) a).1 =
    Normal (code_answer (classify_request a (upload_data file))).
Proof.
  unfold classify_request, is_ready.
  destruct (transcriber a) as [t|] eqn:Ht; [destruct (ready t) eqn:Hr|].
  - pose proof (handle_post_ready model_name file a t Ht Hr) as Hh.
    pose proof (transcribe_bytes_classified t (upload_data file) (upload_filename file)
                  (add_log (mk_log INFO "Received file: filename=%s content_type=%s") (world a))) as Hc.
    destruct (transcribe_bytes _ _ _ _) as [o w]. rewrite Hh, <- (classify_logs _ _ _ INFO
      "Received file: filename=%s content_type=%s"), <- Hc. done.
  - rewrite handle_transcribe_eq, transcribe_not_ready; [done|]. unfold is_ready. by rewrite Ht.
  - rewrite handle_transcribe_eq, transcribe_not_ready; [done|]. unfold is_ready. by rewrite Ht.
Qed.

(** C10: Refinement of the error taxonomy of spec section 7.  Classify a
    [POST /transcribe] by its cause: not ready, undecodable input, a
    failing conversion, temporary file or write, a failing or malformed
    model result, an unrenderable result, or success.  For every kind
    but [InferenceError] the handler's response is exactly the spec's
    (200 with the result, 400 with the format message, 503, or a 500
    whose detail hides the cause); an [InferenceError] is answered 400
    with ["Transcription failed"] where the spec prescribes a 500. *)
Theorem transcribe_refines_taxonomy model_name file a :
  let r := classify_request a (upload_data file) in
  (r <> Spec.Failure Spec.InferenceError ->
     (handle model_name (PostTranscribe file) a).1 = Normal (Spec.answer r)) /\
  (r = Spec.Failure Spec.InferenceError ->
     (handle model_name (PostTranscribe file) a).1 =
       Normal (mk_response 400 (PDict [("detail", PStr msg_failed)]))).
Proof.
  intros r. rewrite handle_post_classified. fold r.
  destruct r as [v|[]]; split; intros Hr; done.
Qed.
End Taxonomy.

(** The faulty model raises: the request is an [InferenceError], which
    the handler answers 400. *)
Lemma transcribe_refines_taxonomy_witness :
  classify_request (app_started "faulty") [x01] = Spec.Failure Spec.InferenceError /\
  (handle "faulty" (PostTranscribe (upload [x01])) (app_started "faulty")).1 =
    Normal (mk_response 400 (PDict [("detail", PStr msg_failed)])).
Proof.
  assert (Hc : classify_request (app_started "faulty") [x01] = Spec.Failure Spec.InferenceError)
    by reflexivity.
  split; [exact Hc|].
  apply (proj2 (transcribe_refines_taxonomy "faulty" (upload [x01]) (app_started "faulty"))).
  exact Hc.
Defined.
