(* ===== verification/Concurrency.v ===== *)
(** * Requests interleaved at the [await] of [transcribe]

    [transcribe] is an [async def] with one suspension point, [data =
    await file.read()] (line 36).  The event loop runs the part before
    it (the readiness check and the INFO record, lines 31-34), may then
    run other requests, and later resumes the handler, which runs to
    its end without yielding again: [transcribe_bytes] is synchronous
    and blocks the loop.  [health] is a plain [def] and runs whole.

    - [transcribe_enter] and [transcribe_resume] are the two halves;
      [transcribe_split] shows that [transcribe] is their sequence.
    - A [Server] holds the process state, the handlers suspended at the
      [await] (with the request ids they serve), and the responses sent
      so far.  [sched_step] runs one scheduling event: a request arrives
      and runs up to its [await] (or whole), or the [k]-th suspended
      handler resumes and completes.  Any interleaving is a list of
      events; the event loop may pick any.  Every [await file.read()]
      is taken to yield; a read Starlette serves from memory may return
      without yielding, so the schedules modelled include every one
      the loop can run, and more.
    - [serve_seq] is the reference: every request handled whole, one
      after the other.

    The theorem [interleaving_serializable] shows that every schedule
    that completes its requests sends the responses the sequential
    service sends for the same requests in the order they complete,
    and ends in the same state up to the order of log records.  The
    proof rests on [log_frame]: no library call reads the log. *)

From stdpp Require Import base list gmap strings.
From Stdlib Require Import ZArith String.
From Stdlib.Init Require Import Byte.
From S2P Require Import Prelude PyValue Backend Transcriber Service.


Definition info_received : log_entry :=
  mk_log INFO "Received file: filename=%s content_type=%s".

Section Concurrency.
Context `{Backend}.

(** Lines 31-34: [transcribe] up to [await file.read()]. *)
Definition transcribe_enter (file : UploadFile) : PyM App pyexc unit :=
  let* a := pget in
  match transcriber a with
  | Some t =>
      if ready t then
        let content_type := default "" (upload_content_type file) in
        on_world (log INFO "Received file: filename=%s content_type=%s")
      else praise (HTTPException 503 "Transcription model not ready")
  | None => praise (HTTPException 503 "Transcription model not ready")
  end.

(** Lines 35-44 after the [await]: the global [_transcriber] is read
    again on line 37, inside the [try]; reading an attribute of [None]
    would raise [AttributeError], caught by [except Exception]. *)
Definition transcribe_resume (file : UploadFile) : PyM App pyexc http_response :=
  let* a := pget in
  match transcriber a with
  | Some t => transcribe_try t file
  | None =>
      on_world (log ERROR "Unexpected error during transcription: %s") ;;;
      praise (HTTPException 500 "Internal server error")
  end.

(** The response FastAPI sends for the outcome of a handler. *)
Definition respond (o : outcome pyexc http_response) : http_response :=
  match o with Normal r => r | Raised e => exception_response e end.

Record Server : Type := mkServer {
  app : App;
  suspended : list (nat * UploadFile);             (** handlers at the [await] *)
  sent : list ((nat * request) * http_response)    (** responses, in the order sent *)
}.

Inductive sched_event : Type :=
| Arrive (id : nat) (r : request)   (** request [id] arrives and runs to its [await] *)
| Wake (k : nat).                   (** the [k]-th suspended handler resumes *)

Definition sched_step (model_name : string) (ev : sched_event) (s : Server) : Server :=
  match ev with
  | Arrive id GetHealth =>
      let '(o, a') := handle model_name GetHealth (app s) in
      mkServer a' (suspended s) (sent s ++ [((id, GetHealth), respond o)])
  | Arrive id (PostTranscribe file) =>
      match transcribe_enter file (app s) with
      | (Normal _, a') => mkServer a' (suspended s ++ [(id, file)]) (sent s)
      | (Raised e, a') =>
          mkServer a' (suspended s) (sent s ++ [((id, PostTranscribe file), exception_response e)])
      end
  | Wake k =>
      match suspended s !! k with
      | Some (id, file) =>
          let '(o, a') := transcribe_resume file (app s) in
          mkServer a' (delete k (suspended s)) (sent s ++ [((id, PostTranscribe file), respond o)])
      | None => s
      end
  end.

Definition run_sched (model_name : string) (evs : list sched_event) (s : Server) : Server :=
  fold_left (fun s ev => sched_step model_name ev s) evs s.

(** The reference: each request handled whole, in the order given. *)
Fixpoint serve_seq (model_name : string) (rs : list (nat * request)) (a : App)
    : list ((nat * request) * http_response) * App :=
  match rs with
  | [] => ([], a)
  | (id, r) :: rs' =>
      let '(o, a1) := handle model_name r a in
      let '(out, a2) := serve_seq model_name rs' a1 in
      (((id, r), respond o) :: out, a2)
  end.

(** Two states that differ only in the order of their log records. *)
Definition app_equiv (a1 a2 : App) : Prop :=
  transcriber a1 = transcriber a2 /\ clear_logs (world a1) = clear_logs (world a2) /\
  logs (world a1) ≡ₚ logs (world a2).

#[export] Instance app_equiv_equivalence : Equivalence app_equiv.
Proof.
  split.
  - intros a. by split_and!.
  - intros a1 a2 (? & ? & ?). split_and!; by symmetry.
  - intros a1 a2 a3 (? & ? & Hp1) (? & ? & Hp2). split_and!; [congruence | congruence |].
    by rewrite Hp1.
Qed.

(** ** The two halves of [transcribe] *)

Lemma is_ready_transcriber a1 a2 : transcriber a1 = transcriber a2 -> is_ready a1 = is_ready a2.
Proof. unfold is_ready. by intros ->. Qed.


Lemma transcribe_enter_eq file a :
  transcribe_enter file a =
    if is_ready a then (Normal tt, mkApp (transcriber a) (add_log info_received (world a)))
    else (Raised (HTTPException 503 "Transcription model not ready"), a).
Proof.
  unfold transcribe_enter, is_ready, log. app_unfold.
  destruct (transcriber a) as [t|] eqn:Ht; [destruct (ready t); by rewrite ?Ht | done].
Qed.

(** [transcribe] is [transcribe_enter] followed by [transcribe_resume]. *)
Lemma transcribe_split file a :
  transcribe file a = (transcribe_enter file ;;; transcribe_resume file) a.
Proof.
  unfold transcribe, transcribe_enter, transcribe_resume. app_unfold.
  destruct (transcriber a) as [t|] eqn:Ht; [|done]. destruct (ready t); [|done]. by rewrite Ht.
Qed.

(** A resumed handler on a ready service: the [try] block and its
    [except] clauses, rendered. *)
Lemma transcribe_resume_ready file a t :
  transcriber a = Some t -> ready t = true ->
  let '(o, w) := transcribe_bytes t (upload_data file) (upload_filename file) (world a) in
  (respond (transcribe_resume file a).1, (transcribe_resume file a).2) =
    (transcribe_response o, mkApp (Some t) (transcribe_log o w)).
Proof.
  intros Ht Hr. unfold transcribe_resume. app_unfold. rewrite Ht, transcribe_try_eq, Ht.
  unfold transcribe_response, transcribe_log.
  destruct (transcribe_bytes _ _ _ _) as [[v|e] w];
    [destruct (json_ok v) | destruct (is_TranscriptionError e)]; done.
Qed.

Lemma transcribe_log_prepend o pre w :
  transcribe_log o (prepend_logs pre w) = prepend_logs pre (transcribe_log o w).
Proof.
  unfold transcribe_log, add_log, prepend_logs.
  destruct o as [v|e]; [destruct (json_ok v) | destruct (is_TranscriptionError e)];
    simpl; rewrite ?app_assoc; done.
Qed.

Lemma serve_seq_snoc model_name rs id r a :
  serve_seq model_name (rs ++ [(id, r)]) a =
    let '(out, a1) := serve_seq model_name rs a in
    let '(o, a2) := handle model_name r a1 in
    (out ++ [((id, r), respond o)], a2).
Proof.
  revert a. induction rs as [|[id' r'] rs IH]; intros a; simpl.
  - destruct (handle model_name r a). done.
  - destruct (handle model_name r' a) as [o a1]. rewrite IH.
    destruct (serve_seq model_name rs a1) as [out a2]. by destruct (handle model_name r a2).
Qed.

(** ** The simulation *)

(** A server state [s] and the state [a] of the sequential service
    agree: the same global transcriber and files, and the same log
    except for the INFO record of each suspended handler, which has
    passed the readiness check. *)
Definition sim (s : Server) (a : App) : Prop :=
  transcriber (app s) = transcriber a /\
  clear_logs (world (app s)) = clear_logs (world a) /\
  logs (world (app s)) ≡ₚ logs (world a) ++ replicate (List.length (suspended s)) info_received /\
  (suspended s = [] \/ is_ready (app s) = true).

(** The responses sent so far are those the sequential service sends
    for the same requests, and its state is simulated. *)
Definition sched_inv (model_name : string) (a0 : App) (s : Server) : Prop :=
  exists a, serve_seq model_name (fst <$> sent s) a0 = (sent s, a) /\ sim s a.

Lemma serve_seq_sent model_name a0 s a id r resp :
  serve_seq model_name (fst <$> sent s) a0 = (sent s, a) ->
  serve_seq model_name (fst <$> (sent s ++ [((id, r), resp)])) a0 =
    let '(o, a2) := handle model_name r a in (sent s ++ [((id, r), respond o)], a2).
Proof. intros Hs. rewrite fmap_app. simpl. by rewrite serve_seq_snoc, Hs. Qed.

Lemma perm_resume {A} (l r t : list A) x : (l ++ x :: r) ++ t ≡ₚ ((l ++ [x]) ++ t) ++ r.
Proof. rewrite <- !app_assoc. simpl. by rewrite (Permutation_app_comm r t). Qed.

Lemma sched_inv_health model_name a0 s id :
  sched_inv model_name a0 s -> sched_inv model_name a0 (sched_step model_name (Arrive id GetHealth) s).
Proof.
  intros (a & Hs & Ht & Hc & Hl & Hr). unfold sched_step. rewrite handle_health_eq. exists a.
  cbn [sent app suspended]. rewrite (serve_seq_sent _ _ _ a) by done.
  rewrite handle_health_eq, (is_ready_transcriber a (app s)) by done. done.
Qed.

Lemma sched_inv_arrive model_name a0 s id file :
  sched_inv model_name a0 s ->
  sched_inv model_name a0 (sched_step model_name (Arrive id (PostTranscribe file)) s).
Proof.
  intros (a & Hs & Ht & Hc & Hl & Hr). unfold sched_step. rewrite transcribe_enter_eq.
  destruct (is_ready (app s)) eqn:Hready.
  - exists a. split; [done|]. simpl. split_and!; [done | done | | by right].
    cbn [app world suspended logs add_log]. rewrite length_app, replicate_add, Hl. simpl. by rewrite app_assoc.
  - exists a. cbn [sent app suspended]. rewrite (serve_seq_sent _ _ _ a) by done.
    rewrite handle_transcribe_eq, transcribe_not_ready
      by (by rewrite (is_ready_transcriber a (app s))).
    split; [done|]. unfold sim. cbn [app suspended]. split_and!; [done..|].
    destruct Hr as [Hr|Hr]; [by left | done].
Qed.

Lemma sched_inv_wake model_name a0 s k :
  sched_inv model_name a0 s -> sched_inv model_name a0 (sched_step model_name (Wake k) s).
Proof.
  intros (a & Hs & Ht & Hc & Hl & Hr). unfold sched_step.
  destruct (suspended s !! k) as [[id file]|] eqn:Hk; [|exists a; by split_and!].
  assert (Hready : is_ready (app s) = true).
  { destruct Hr as [Hr|Hr]; [by rewrite Hr in Hk | done]. }
  unfold is_ready in Hready. destruct (transcriber (app s)) as [t|] eqn:Hts; [|done].
  pose proof (transcribe_resume_ready file (app s) t Hts Hready) as Hres.
  pose proof (handle_post_ready model_name file a t ltac:(congruence) Hready) as Hseq.
  destruct (log_frame_same (transcribe_bytes t (upload_data file) (upload_filename file))
              (world (app s))
              (add_log (mk_log INFO "Received file: filename=%s content_type=%s") (world a))
              (transcribe_bytes_log_frame _ _ _) Hc) as (o & w' & E1 & E2).
  rewrite E1 in Hres. rewrite E2 in Hseq.
  destruct (transcribe_resume file (app s)) as [o' a'] eqn:Eres. cbn [fst snd] in Hres.
  injection Hres as Hresp ->.
  eexists. split.
  { cbn [sent]. rewrite (serve_seq_sent _ _ _ a) by done. rewrite Hseq. by rewrite Hresp. }
  unfold sim. cbn [app suspended world transcriber].
  rewrite !transcribe_log_prepend. split_and!; [done | done | | by right].
  cbn [prepend_logs logs add_log]. rewrite length_delete by eauto.
  destruct (suspended s) as [|x l]; [done|]. rewrite Hl. simpl. rewrite Nat.sub_0_r.
  apply perm_resume.
Qed.

Lemma sched_inv_step model_name a0 ev s :
  sched_inv model_name a0 s -> sched_inv model_name a0 (sched_step model_name ev s).
Proof.
  destruct ev as [id [|file]|k];
    [apply sched_inv_health | apply sched_inv_arrive | apply sched_inv_wake].
Qed.

Lemma run_sched_inv model_name a0 evs s :
  sched_inv model_name a0 s -> sched_inv model_name a0 (run_sched model_name evs s).
Proof.
  revert s. induction evs as [|ev evs IH]; intros s Hs; [done|].
  apply IH, sched_inv_step, Hs.
Qed.

(** ** Serializability *)

(** C20: Requests interleaved at the [await] of [transcribe], in any
    order the event loop picks, get the responses the service gives
    when it handles the same requests whole, one after the other, in
    the order they complete; once no handler is suspended, the state
    is the sequential one up to the order of the log records. *)
Theorem interleaving_serializable model_name evs a0 s :
  run_sched model_name evs (mkServer a0 [] []) = s -> suspended s = [] ->
  exists a, serve_seq model_name (fst <$> sent s) a0 = (sent s, a) /\ app_equiv (app s) a.
Proof.
  intros Hrun Hsusp.
  assert (Hinv : sched_inv model_name a0 s).
  { rewrite <- Hrun. apply run_sched_inv. exists a0. split; [done|].
    split_and!; [done | done | by rewrite app_nil_r | by left]. }
  destruct Hinv as (a & Hs & Ht & Hc & Hl & _). exists a. split; [done|].
  rewrite Hsusp, app_nil_r in Hl. by split_and!.
Qed.


End Concurrency.

(** ** A witness on the toy backend *)

(** Two uploads suspended at the [await], a health check between
    them, and the second upload resumed first. *)
Definition toy_schedule : list sched_event :=
  [Arrive 0 (PostTranscribe (upload [x01])); Arrive 1 GetHealth;
   Arrive 2 (PostTranscribe (upload [])); Wake 1; Wake 0].

Definition toy_run : @Server ToyBackend :=
  run_sched "base" toy_schedule (mkServer (app_started "base") [] []).

Lemma interleaving_serializable_witness :
  suspended toy_run = [] /\
  exists a, serve_seq "base" (fst <$> sent toy_run) (app_started "base") = (sent toy_run, a) /\
    app_equiv (app toy_run) a.
Proof.
  assert (Hs : suspended toy_run = []) by (vm_compute; reflexivity).
  split; [exact Hs|]. apply (interleaving_serializable "base" toy_schedule); [reflexivity | exact Hs].
Defined.

(** The order in which the toy schedule answers: the health check,
    the empty upload (400), then the first upload (200). *)
Example toy_run_order :
  (fun '((id, _), resp) => (id, status resp)) <$> sent toy_run = [(1, 200%Z); (2, 400%Z); (0, 200%Z)].
Proof. vm_compute. reflexivity. Qed.
