(* ===== verification/Routing.v ===== *)
(** * The HTTP interface: routing, parameter binding and the response contract

    [main.py] builds [app = FastAPI(title=...)] (line 8), which installs
    FastAPI's documentation routes, and registers [GET /health] (line
    24) and [POST /transcribe] (line 29) with the parameter [file:
    UploadFile = File(...)] (line 30).  What the framework does with a
    request before a handler runs is modelled here, as FastAPI 0.100+
    on Starlette does it:

    - [router_app]: Starlette's [Router.app]: the first route whose path and
      method match; else the first whose path matches, which answers 405;
      else, for a path other than ["/"], a 307 redirect when the path
      with its trailing slashes removed (or with one added) matches a
      route; else 404.  [route_spec] is the same decision written per
      path, and [router_app_by_path] shows the two agree on every table
      whose paths are distinct, as that of [main.py] is.
    - [bind_file]: the multipart form is read ([Unparsable] is a body
      the parser rejects: 400), the last value of the field ["file"] is
      taken, and it must be an upload; a missing field or an empty text
      value is [missing], another text value fails [UploadFile]'s
      validator: 422 either way, before the handler runs.  A body that
      is not a form reads as an empty form.
    - [serve_raw] is the whole request: route, bind, run the handler
      ([Service.handle]).  The documentation pages are [DocsPage]: their
      content is not modelled; a redirect carries its target path.

    What [main.py] itself decides here is its route table: [/health] for
    [GET] only and [/transcribe] for [POST] only ([wrong_method_405],
    which makes [HEAD /health] a 405), and the required parameter named
    ["file"] ([transcribe_unbound_422], a 422 that preempts the
    readiness check).  The last theorem composes the service with
    [Schemas]: a 200 answer to [POST /transcribe] is a valid
    [TranscriptionResponse] naming the configured model exactly when
    the language whisper returned for that upload is [None], absent or
    a string.  [router_app_by_path] and [trailing_slash_redirect] are
    facts of the Starlette model, kept as lemmas. *)

From stdpp Require Import base list gmap strings.
From Stdlib Require Import ZArith QArith String Ascii.
From Stdlib.Init Require Import Byte.
From S2P Require Import Prelude PyValue Backend Transcriber Schemas Service.

(** ** Routes *)

Inductive endpoint : Type := EHealth | ETranscribe | EDocs.

Record Route : Type := mkRoute {
  route_path : string;
  route_methods : list string;
  route_endpoint : endpoint
}.

(** The routes [FastAPI()] installs: the OpenAPI document and the docs
    pages, plain Starlette routes answering [GET] and [HEAD]. *)
Definition docs_routes : list Route :=
  [mkRoute "/openapi.json" ["GET"; "HEAD"] EDocs; mkRoute "/docs" ["GET"; "HEAD"] EDocs;
   mkRoute "/docs/oauth2-redirect" ["GET"; "HEAD"] EDocs; mkRoute "/redoc" ["GET"; "HEAD"] EDocs].

(** [@app.get("/health")]: an [APIRoute], which does not add [HEAD]. *)
Definition health_route : Route := mkRoute "/health" ["GET"] EHealth.

(** [@app.post("/transcribe", ...)] *)
Definition transcribe_route : Route := mkRoute "/transcribe" ["POST"] ETranscribe.

Definition app_routes : list Route := docs_routes ++ [health_route; transcribe_route].

(** [Match.NONE], [Match.PARTIAL] (path only), [Match.FULL]. *)
Inductive match_kind : Type := MNone | MPartial | MFull.

(** [Route.matches] *)
Definition route_matches (rt : Route) (method path : string) : match_kind :=
  if String.eqb path (route_path rt) then
    if existsb (String.eqb method) (route_methods rt) then MFull else MPartial
  else MNone.

(** The loop of [Router.app]: return the first full match, and
    remember the first partial one. *)
Fixpoint router_loop (rts : list Route) (method path : string) (partial : option Route)
    : option (Route * bool) :=
  match rts with
  | [] => (fun rt => (rt, false)) <$> partial
  | rt :: rts' =>
      match route_matches rt method path with
      | MFull => Some (rt, true)
      | MPartial => router_loop rts' method path (match partial with None => Some rt | _ => partial end)
      | MNone => router_loop rts' method path partial
      end
  end.

(** [path.rstrip("/")] *)
Fixpoint drop_slashes (l : list ascii) : list ascii :=
  match l with
  | c :: l' => if Ascii.eqb c "/" then drop_slashes l' else l
  | [] => []
  end.

Definition rstrip_slash (p : string) : string :=
  string_of_list_ascii (rev (drop_slashes (rev (list_ascii_of_string p)))).

Definition ends_with_slash (p : string) : bool :=
  match rev (list_ascii_of_string p) with c :: _ => Ascii.eqb c "/" | [] => false end.

(** The path [redirect_slashes] tries instead. *)
Definition redirect_path (p : string) : string :=
  if ends_with_slash p then rstrip_slash p else (p ++ "/")%string.

Inductive dispatch : Type :=
| DEndpoint (e : endpoint)
| DMethodNotAllowed
| DRedirect (target : string)
| DNotFound.

(** [Router.app]: the loop, the partial match, the slash redirect, the
    default. *)
Definition router_app (rts : list Route) (method path : string) : dispatch :=
  match router_loop rts method path None with
  | Some (rt, true) => DEndpoint (route_endpoint rt)
  | Some (_, false) => DMethodNotAllowed
  | None =>
      let p' := redirect_path path in
      if negb (String.eqb path "/") &&
         existsb (fun rt => match route_matches rt method p' with MNone => false | _ => true end) rts
      then DRedirect p'
      else DNotFound
  end.

(** ** Binding [file: UploadFile = File(...)] *)

Inductive form_value : Type :=
| FormFile (f : UploadFile)
| FormText (s : string).

Inductive request_body : Type :=
| Multipart (fields : list (string * form_value))
| Unparsable.

Record raw_request : Type := mkRaw {
  method : string;
  path : string;
  req_body : request_body
}.

(** [FormData.get(k)]: the last value of the field. *)
Fixpoint form_get (k : string) (fields : list (string * form_value)) : option form_value :=
  match fields with
  | [] => None
  | (k', v) :: fields' =>
      match form_get k fields' with
      | Some v' => Some v'
      | None => if String.eqb k k' then Some v else None
      end
  end.

Inductive bind_error : Type :=
| Missing
| NotUploadFile (s : string).

Inductive binding : Type :=
| Bound (f : UploadFile)
| BodyError
| FieldError (e : bind_error).

(** [request_body_to_args] for the one parameter [file]. *)
Definition bind_file (b : request_body) : binding :=
  match b with
  | Unparsable => BodyError
  | Multipart fields =>
      match form_get "file" fields with
      | Some (FormFile f) => Bound f
      | Some (FormText s) => if String.eqb s "" then FieldError Missing else FieldError (NotUploadFile s)
      | None => FieldError Missing
      end
  end.

(** The error pydantic reports, as [jsonable_encoder] renders it. *)
Definition error_detail (e : bind_error) : pyval :=
  match e with
  | Missing =>
      PDict [("type", PStr "missing"); ("loc", PList [PStr "body"; PStr "file"]);
             ("msg", PStr "Field required"); ("input", PNone)]
  | NotUploadFile s =>
      PDict [("type", PStr "value_error"); ("loc", PList [PStr "body"; PStr "file"]);
             ("msg", PStr "Value error, Expected UploadFile, received: <class 'str'>");
             ("input", PStr s); ("ctx", PDict [("error", PDict [])])]
  end.

(** ** The whole request *)

Inductive reply : Type :=
| Reply (r : http_response)
| Redirect (target : string)      (** 307, [Location] the target path *)
| DocsPage (path : string).       (** a documentation page *)

Definition detail_response (code : Z) (detail : string) : http_response :=
  mk_response code (PDict [("detail", PStr detail)]).

(** [n] slashes. *)
Definition slashes (n : nat) : string := string_of_list_ascii (repeat "/"%char n).

(** The decision of [router_app] written per path: the route with that
    path, if any, by its methods; else the redirect, else 404. *)
Definition path_route (rts : list Route) (p : string) : option Route :=
  List.find (fun rt => String.eqb p (route_path rt)) rts.

Definition route_spec (rts : list Route) (method path : string) : dispatch :=
  match path_route rts path with
  | Some rt =>
      if existsb (String.eqb method) (route_methods rt) then DEndpoint (route_endpoint rt)
      else DMethodNotAllowed
  | None =>
      if negb (String.eqb path "/") && bool_decide (is_Some (path_route rts (redirect_path path)))
      then DRedirect (redirect_path path)
      else DNotFound
  end.

Section Serve.
Context `{Backend}.

Definition serve_raw (model_name : string) (rq : raw_request) : PyM App pyexc reply :=
  match router_app app_routes (method rq) (path rq) with
  | DEndpoint EHealth => let* r := handle model_name GetHealth in pret (Reply r)
  | DEndpoint ETranscribe =>
      match bind_file (req_body rq) with
      | Bound f => let* r := handle model_name (PostTranscribe f) in pret (Reply r)
      | BodyError => pret (Reply (detail_response 400 "There was an error parsing the body"))
      | FieldError e => pret (Reply (mk_response 422 (PDict [("detail", PList [error_detail e])])))
      end
  | DEndpoint EDocs => pret (DocsPage (path rq))
  | DMethodNotAllowed => pret (Reply (detail_response 405 "Method Not Allowed"))
  | DRedirect p => pret (Redirect p)
  | DNotFound => pret (Reply (detail_response 404 "Not Found"))
  end.
End Serve.

(** ** The router *)

Lemma route_matches_none rt method path :
  String.eqb path (route_path rt) = false -> route_matches rt method path = MNone.
Proof. unfold route_matches. by intros ->. Qed.

(** No route has the path: the loop ends with the partial match it had. *)
Lemma router_loop_absent rts method path partial :
  Forall (fun rt => String.eqb path (route_path rt) = false) rts ->
  router_loop rts method path partial = (fun rt => (rt, false)) <$> partial.
Proof.
  intros Hall. revert partial. induction Hall as [|rt rts Hrt _ IH]; intros partial; [done|].
  simpl. rewrite route_matches_none by done. apply IH.
Qed.

(** With distinct paths, the loop finds the route with the path, and
    says whether it takes the method. *)
Lemma router_loop_distinct rts method path :
  NoDup (route_path <$> rts) ->
  router_loop rts method path None =
    (fun rt => (rt, existsb (String.eqb method) (route_methods rt))) <$> path_route rts path.
Proof.
  induction rts as [|rt rts IH]; intros Hnd; [done|]. simpl in Hnd.
  apply NoDup_cons in Hnd as [Hnot Hnd]. unfold path_route. simpl. unfold route_matches.
  destruct (String.eqb_spec path (route_path rt)) as [->|Hne]; [|by apply IH].
  cbn. destruct (existsb (String.eqb method) (route_methods rt)) eqn:E; [done|].
  rewrite router_loop_absent; [done|]. apply Forall_forall. intros rt' Hin.
  apply String.eqb_neq. intros Heq. apply Hnot. rewrite Heq. by apply list_elem_of_fmap_2.
Qed.

Lemma existsb_route_matches rts method p :
  existsb (fun rt => match route_matches rt method p with MNone => false | _ => true end) rts =
  bool_decide (is_Some (path_route rts p)).
Proof.
  unfold path_route. induction rts as [|rt rts IH]; [done|]. simpl. unfold route_matches.
  destruct (String.eqb p (route_path rt)).
  - rewrite bool_decide_true by (by eexists). by destruct (existsb (String.eqb method) (route_methods rt)).
  - exact IH.
Qed.

(** On a route table whose paths are distinct, as that of
    [main.py] is, Starlette's loop with its partial matches decides
    exactly as a lookup by path: the route's endpoint when it takes the
    method, 405 when it does not, and for an unknown path the trailing
    slash redirect or 404. *)
Lemma router_app_by_path rts method path :
  NoDup (route_path <$> rts) -> router_app rts method path = route_spec rts method path.
Proof.
  intros Hnd. unfold router_app, route_spec. rewrite router_loop_distinct by done.
  destruct (path_route rts path) as [rt|]; simpl; [by destruct (existsb _ _)|].
  by rewrite existsb_route_matches.
Qed.

(** ** Paths with trailing slashes *)

Lemma list_ascii_of_string_append s1 s2 :
  list_ascii_of_string (String.append s1 s2) = list_ascii_of_string s1 ++ list_ascii_of_string s2.
Proof. induction s1 as [|c s1 IH]; simpl; [done|]. by rewrite IH. Qed.

Lemma list_ascii_of_slashes_append p k :
  list_ascii_of_string (String.append p (slashes k)) = list_ascii_of_string p ++ repeat "/"%char k.
Proof. unfold slashes. by rewrite list_ascii_of_string_append, list_ascii_of_string_of_list_ascii. Qed.

Lemma ends_with_slash_slashes p k : ends_with_slash (String.append p (slashes (S k))) = true.
Proof.
  unfold ends_with_slash. rewrite list_ascii_of_slashes_append, rev_app_distr, rev_repeat. done.
Qed.

Lemma drop_slashes_repeat n l : drop_slashes (repeat "/"%char n ++ l) = drop_slashes l.
Proof. induction n as [|n IH]; [done|]. exact IH. Qed.

(** [rstrip("/")] removes exactly the slashes appended to a path that
    does not end with one. *)
Lemma rstrip_slash_append p k :
  ends_with_slash p = false -> rstrip_slash (String.append p (slashes k)) = p.
Proof.
  unfold rstrip_slash, ends_with_slash. intros Hp.
  rewrite list_ascii_of_slashes_append, rev_app_distr, rev_repeat, drop_slashes_repeat.
  destruct (rev (list_ascii_of_string p)) as [|c l] eqn:E.
  - simpl. apply (f_equal (@rev ascii)) in E. rewrite rev_involutive in E. simpl in E.
    by rewrite <- (string_of_list_ascii_of_string p), E.
  - simpl. rewrite Hp. rewrite <- E, rev_involutive. apply string_of_list_ascii_of_string.
Qed.

Lemma slashes_append_not_root p k : p <> ""%string -> String.append p (slashes (S k)) <> "/"%string.
Proof.
  intros Hp Heq. apply (f_equal list_ascii_of_string) in Heq.
  rewrite list_ascii_of_slashes_append in Heq. apply (f_equal List.length) in Heq.
  rewrite length_app, repeat_length in Heq. simpl in Heq.
  destruct p; [done|]. simpl in Heq. lia.
Qed.

Lemma eqb_slash_mismatch q rp :
  ends_with_slash q = true -> ends_with_slash rp = false -> String.eqb q rp = false.
Proof. intros Hq Hrp. apply String.eqb_neq. intros ->. congruence. Qed.

Lemma path_route_elem rts p : p ∈ route_path <$> rts -> is_Some (path_route rts p).
Proof.
  unfold path_route. induction rts as [|rt rts IH]; simpl; [by intros ?%elem_of_nil|].
  intros [->|Hin]%elem_of_cons; [by rewrite String.eqb_refl|].
  destruct (String.eqb p (route_path rt)); [done | by apply IH].
Qed.

(** The paths of [main.py]'s routes: none ends with a slash, none is
    empty, and they are distinct. *)
Lemma app_routes_paths :
  Forall (fun rt => ends_with_slash (route_path rt) = false /\ route_path rt <> ""%string) app_routes.
Proof. apply (bool_decide_unpack _). vm_compute. reflexivity. Qed.

Lemma app_routes_nodup : NoDup (route_path <$> app_routes).
Proof. apply (bool_decide_unpack _). vm_compute. reflexivity. Qed.

Lemma path_route_self rts rt :
  NoDup (route_path <$> rts) -> rt ∈ rts -> path_route rts (route_path rt) = Some rt.
Proof.
  unfold path_route. induction rts as [|rt0 rts IH]; intros Hnd Hin; [by apply elem_of_nil in Hin|].
  simpl in Hnd. apply NoDup_cons in Hnd as [Hnot Hnd]. simpl.
  apply elem_of_cons in Hin as [->|Hin]; [by rewrite String.eqb_refl|].
  destruct (String.eqb_spec (route_path rt) (route_path rt0)) as [Heq|]; [|by apply IH].
  exfalso. apply Hnot. rewrite <- Heq. by apply list_elem_of_fmap_2.
Qed.

Lemma existsb_eqb_notin (m : string) (ms : list string) : m ∉ ms -> existsb (String.eqb m) ms = false.
Proof.
  induction ms as [|m' ms IH]; intros Hm; [done|]. simpl.
  destruct (String.eqb_spec m m') as [->|]; [by destruct Hm; left|].
  apply IH. intros Hin. apply Hm. by right.
Qed.

(** The model field of a validated shaped response. *)
Lemma validate_shaped_model float_of_str text lang segs name r :
  validate_TranscriptionResponse float_of_str
    (PDict [("text", PStr text); ("language", lang); ("segments", PList segs);
            ("model", PStr name)]) = Some r ->
  TranscriptionResponse_model r = name.
Proof.
  simpl. intros Hv. apply bind_Some in Hv as (? & _ & Hv). apply bind_Some in Hv as (? & _ & Hv).
  by injection Hv as <-.
Qed.

(** A 200 from the [try] block is the JSON of the result. *)
Lemma transcribe_response_200 o :
  status (transcribe_response o) = 200%Z -> exists v, o = Normal v /\ transcribe_response o = mk_response 200 v.
Proof.
  unfold transcribe_response.
  destruct o as [v|e]; [destruct (json_ok v) | destruct (is_TranscriptionError e)]; simpl; intros H;
    try discriminate. eauto.
Qed.

Section Claims.
Context `{Backend}.

Lemma router_post_transcribe : router_app app_routes "POST" "/transcribe" = DEndpoint ETranscribe.
Proof. vm_compute. reflexivity. Qed.

(** C21: A [POST /transcribe] whose form has no upload in its ["file"]
    field is answered 422 with pydantic's error ([missing] when the
    field is absent) before [transcribe] runs: the state is unchanged,
    nothing is logged, and this holds also while the model is not
    ready, where the handler would have answered 503. *)
Theorem transcribe_unbound_422 model_name fields a :
  (forall f, form_get "file" fields <> Some (FormFile f)) ->
  exists e,
    serve_raw model_name (mkRaw "POST" "/transcribe" (Multipart fields)) a =
      (Normal (Reply (mk_response 422 (PDict [("detail", PList [error_detail e])]))), a) /\
    (form_get "file" fields = None -> e = Missing).
Proof.
  intros Hnf. unfold serve_raw. cbn [method path req_body].
  rewrite router_post_transcribe. unfold bind_file.
  destruct (form_get "file" fields) as [[f|t]|] eqn:E; [by destruct (Hnf f)| |by exists Missing].
  destruct (String.eqb t ""); [exists Missing | exists (NotUploadFile t)]; by split.
Qed.

(** A route's path followed by one or more slashes, with any
    method and body, is redirected (307) to the path itself, without
    running a handler or changing the state. *)
Lemma trailing_slash_redirect model_name m p k b a :
  p ∈ route_path <$> app_routes ->
  serve_raw model_name (mkRaw m (String.append p (slashes (S k))) b) a = (Normal (Redirect p), a).
Proof.
  intros Hin. pose proof Hin as (rt & -> & Hrt)%list_elem_of_fmap.
  pose proof (proj1 (Forall_forall _ _) app_routes_paths rt Hrt) as [Hend Hne].
  unfold serve_raw, router_app. cbn [method path].
  rewrite router_loop_absent; cycle 1.
  { eapply Forall_impl; [exact app_routes_paths|]. intros rt' [Hend' _].
    apply eqb_slash_mismatch; [apply ends_with_slash_slashes | done]. }
  assert (Hroot : String.eqb (String.append (route_path rt) (slashes (S k))) "/" = false)
    by (apply String.eqb_neq, slashes_append_not_root, Hne).
  unfold redirect_path. rewrite ends_with_slash_slashes, rstrip_slash_append, Hroot by done.
  rewrite existsb_route_matches, bool_decide_true by (by apply path_route_elem).
  reflexivity.
Qed.

(** A request to the path of a route of [main.py]'s table with a method
    the route does not take is answered 405 without running a handler. *)
Lemma route_wrong_method_405 model_name rt m b a :
  rt ∈ app_routes -> m ∉ route_methods rt ->
  serve_raw model_name (mkRaw m (route_path rt) b) a =
    (Normal (Reply (detail_response 405 "Method Not Allowed")), a).
Proof.
  intros Hrt Hm. unfold serve_raw, router_app. cbn [method path].
  rewrite router_loop_distinct, path_route_self by (done || apply app_routes_nodup).
  simpl. by rewrite existsb_eqb_notin.
Qed.

(** C22: [main.py] declares [/health] for [GET] only ([@app.get], an
    [APIRoute], which adds no [HEAD]) and [/transcribe] for [POST] only:
    any other method on either path, [HEAD /health] included, is
    answered 405 ["Method Not Allowed"] without running a handler or
    changing the state. *)
Theorem wrong_method_405 model_name m b a :
  (m <> "GET"%string ->
   serve_raw model_name (mkRaw m "/health" b) a =
     (Normal (Reply (detail_response 405 "Method Not Allowed")), a)) /\
  (m <> "POST"%string ->
   serve_raw model_name (mkRaw m "/transcribe" b) a =
     (Normal (Reply (detail_response 405 "Method Not Allowed")), a)).
Proof.
  split; intros Hm.
  - apply (route_wrong_method_405 model_name health_route);
      [apply list_elem_of_In; simpl; tauto | intros ?%list_elem_of_singleton; congruence].
  - apply (route_wrong_method_405 model_name transcribe_route);
      [apply list_elem_of_In; simpl; tauto | intros ?%list_elem_of_singleton; congruence].
Qed.

(** C19: In every state a process reaches, the body of a 200 answer to
    [POST /transcribe] is a valid [TranscriptionResponse] naming the
    configured model exactly when the language in the result whisper
    returned for this upload (its WAV export at one channel and 16 kHz)
    is [None], absent or a string: the interface of the spec's section
    6, with the one way the code can break it. *)
Theorem transcribe_200_conforms float_of_str model_name a file t a0 a1 a2 bytes result lang
    resp a' :
  reachable model_name a -> transcriber a = Some t ->
  from_file (upload_data file) = Some a0 -> set_channels a0 1 = Some a1 ->
  set_frame_rate a1 16000 = Some a2 -> wav_encode a2 = Some bytes ->
  model_transcribe (model t) bytes = Some result ->
  dict_get result "language" PNone = Normal lang ->
  handle model_name (PostTranscribe file) a = (Normal resp, a') -> status resp = 200%Z ->
  (is_Some (validate_TranscriptionResponse float_of_str (body resp)) <->
     is_optional_str lang = true) /\
  (forall r, validate_TranscriptionResponse float_of_str (body resp) = Some r ->
     TranscriptionResponse_model r = model_name).
Proof.
  intros Hreach Ht Hf Hc Hr He Hm Hl Hh Hs. destruct (is_ready a) eqn:Hrdy.
  2:{ rewrite handle_transcribe_eq, transcribe_not_ready in Hh by done. by simplify_eq. }
  unfold is_ready in Hrdy. rewrite Ht in Hrdy.
  destruct (reachable_transcriber model_name a t Hreach Ht) as [_ Hname].
  pose proof (handle_post_ready model_name file a t Ht Hrdy) as Hp.
  destruct (transcribe_bytes _ _ _ _) as [o w] eqn:Eb. rewrite Hp in Hh. injection Hh as <- _.
  destruct (transcribe_response_200 o Hs) as (v & -> & ->).
  destruct (transcribe_bytes_normal _ _ _ _ _ _ Eb)
    as (b0 & b1 & b2 & bytes' & result' & Hf' & Hc' & Hr' & _ & _ & He' & Hm' & Hsh & _).
  rewrite Hf in Hf'. injection Hf' as <-. rewrite Hc in Hc'. injection Hc' as <-.
  rewrite Hr in Hr'. injection Hr' as <-. rewrite He in He'. injection He' as <-.
  rewrite Hm in Hm'. injection Hm' as <-.
  split; [exact (shape_result_validates float_of_str _ _ _ _ Hsh Hl)|].
  destruct (shape_result_inv _ _ _ Hsh) as (text & lang' & items & segs & Hv & _).
  intros r Hr'. simpl in Hr'. rewrite Hv in Hr'. rewrite <- Hname.
  by eapply validate_shaped_model.
Qed.

End Claims.

(** ** Witnesses and runs on the toy backend *)

(** An upload whose form names the field ["upload"] instead of ["file"],
    to a service that never started. *)
Lemma transcribe_unbound_422_witness :
  (forall f, form_get "file" [("upload", FormFile (upload [x01]))] <> Some (FormFile f)) /\
  exists e,
    serve_raw (H := ToyBackend) "base"
      (mkRaw "POST" "/transcribe" (Multipart [("upload", FormFile (upload [x01]))])) (mkApp None world0) =
      (Normal (Reply (mk_response 422 (PDict [("detail", PList [error_detail e])]))), mkApp None world0) /\
    (form_get "file" [("upload", FormFile (upload [x01]))] = None -> e = Missing).
Proof.
  assert (Hnf : forall f, form_get "file" [("upload", FormFile (upload [x01]))] <> Some (FormFile f))
    by (intros f; vm_compute; discriminate).
  split; [exact Hnf | apply transcribe_unbound_422, Hnf].
Defined.

Lemma wrong_method_405_witness :
  "HEAD"%string <> "GET"%string /\
  serve_raw (H := ToyBackend) "base" (mkRaw "HEAD" "/health" (Multipart [])) (app_started "base") =
    (Normal (Reply (detail_response 405 "Method Not Allowed")), app_started "base").
Proof.
  assert (Hm : "HEAD"%string <> "GET"%string) by discriminate.
  split; [exact Hm | exact (proj1 (wrong_method_405 "base" "HEAD" (Multipart []) (app_started "base")) Hm)].
Defined.

(** The toy service's answer to the sample upload. *)
Definition toy_post : outcome pyexc http_response * @App ToyBackend :=
  handle "base" (PostTranscribe (upload [x01])) (app_started "base").

Definition toy_post_response : http_response :=
  match toy_post.1 with Normal r => r | Raised _ => mk_response 0 PNone end.

Lemma transcribe_200_conforms_witness :
  reachable "base" (app_started "base") /\ status toy_post_response = 200%Z /\
  (is_Some (validate_TranscriptionResponse (fun _ => None) (body toy_post_response)) <->
     is_optional_str (PStr "en") = true) /\
  (forall r, validate_TranscriptionResponse (fun _ => None) (body toy_post_response) = Some r ->
     TranscriptionResponse_model r = "base"%string).
Proof.
  assert (Hr : reachable "base" (app_started "base"))
    by (apply (reach_step "base" (mkApp None world0) Startup), reach_init).
  assert (Hs : status toy_post_response = 200%Z) by (vm_compute; reflexivity).
  split_and!; [exact Hr | exact Hs | |].
  - apply (transcribe_200_conforms (fun _ => None) "base" (app_started "base") (upload [x01])
             (toy_transcriber "base") (mk_toy_audio 2 44100 [x01]) (mk_toy_audio 1 44100 [x01])
             (mk_toy_audio 1 16000 [x01]) [x01] (toy_result (FFin 0%Q)) (PStr "en")
             toy_post_response toy_post.2); first [exact Hr | exact Hs | vm_compute; reflexivity].
  - apply (transcribe_200_conforms (fun _ => None) "base" (app_started "base") (upload [x01])
             (toy_transcriber "base") (mk_toy_audio 2 44100 [x01]) (mk_toy_audio 1 44100 [x01])
             (mk_toy_audio 1 16000 [x01]) [x01] (toy_result (FFin 0%Q)) (PStr "en")
             toy_post_response toy_post.2); first [exact Hr | exact Hs | vm_compute; reflexivity].
Defined.

Example unknown_path_404 :
  serve_raw (H := ToyBackend) "base" (mkRaw "GET" "/" (Multipart [])) (app_started "base") =
    (Normal (Reply (detail_response 404 "Not Found")), app_started "base").
Proof. vm_compute. reflexivity. Qed.

Example docs_served :
  (serve_raw (H := ToyBackend) "base" (mkRaw "HEAD" "/docs" (Multipart [])) (app_started "base")).1 =
    Normal (DocsPage "/docs").
Proof. vm_compute. reflexivity. Qed.

Example add_slash_redirect :
  (serve_raw (H := ToyBackend) "base" (mkRaw "POST" "/docs/oauth2-redirect/" (Multipart [])) (mkApp None world0)
   ).1 = Normal (Redirect "/docs/oauth2-redirect").
Proof. vm_compute. reflexivity. Qed.

