(* ===== verification/TestApi.v ===== *)
(** * [src/tests/test_api.py]: the API tests, run against the model

    The module builds [client = TestClient(app)] once, at import, and
    not as a context manager, so Starlette never runs the startup hook:
    the tests run against a process whose [_transcriber] is [None].  The
    fixture's comment ("TestClient triggers startup") says otherwise.
    [test_health] and [test_transcribe_with_sample_audio] are modelled
    as functions from the process state to a verdict; [run_test_module]
    runs them in file order on the shared client, and
    [run_test_module_started] runs them after the startup hook, as
    [with TestClient(app)] would.

    [r.json()] is the response body; [k in data] on a dictionary tests
    its keys; [data.text] on a dictionary raises [AttributeError]. *)

From stdpp Require Import base list gmap strings.
From Stdlib Require Import ZArith QArith String.
From Stdlib.Init Require Import Byte.
From S2P Require Import Prelude PyValue Backend Transcriber Service.

(** The verdict of one test function. *)
Inductive verdict : Type :=
| Passed
| Failed (why : string).

(** [k in d] for a dictionary [d]. *)
Definition py_contains (k : string) (d : pyval) : bool :=
  match d with
  | PDict kvs => existsb (fun kv => String.eqb kv.1 k) kvs
  | _ => false
  end.

Definition attribute_error : string := "AttributeError: 'dict' object has no attribute 'text'".

Section Tests.
Context `{Backend}.

(** [test_health] (lines 14-18) *)
Definition test_health (model_name : string) (a : App) : verdict * App :=
  let '(o, a') := handle model_name GetHealth a in
  (match o with
   | Normal r =>
       if Z.eqb (status r) 200 then
         if py_contains "status" (body r) then Passed
         else Failed "assert 'status' in data"
       else Failed "assert r.status_code == 200"
   | Raised _ => Failed "unhandled exception"
   end, a').

(** The upload the test posts: [files={"file": ("hello.m4a", fh)}]. *)
Definition sample_upload (bytes : list byte) : UploadFile :=
  mk_upload (Some "hello.m4a") None bytes.

(** [test_transcribe_with_sample_audio] (lines 20-32); [sample] is the
    content of [sample_audio/hello.m4a], [None] when it is missing. *)
Definition test_transcribe (model_name : string) (sample : option (list byte)) (a : App)
    : verdict * App :=
  match sample with
  | None => (Failed "assert sample.exists()", a)
  | Some bytes =>
      let '(o, a') := handle model_name (PostTranscribe (sample_upload bytes)) a in
      (match o with
       | Normal r =>
           if Z.eqb (status r) 200 then
             if py_contains "text" (body r) then Failed attribute_error
             else Failed "assert 'text' in data"
           else if Z.eqb (status r) 503 || Z.eqb (status r) 400 then Passed
           else Failed "assert r.status_code in (503, 400)"
       | Raised _ => Failed "unhandled exception"
       end, a')
  end.

(** The module as pytest runs it: both tests, in order, on one client
    whose startup hook never ran. *)
Definition run_test_module (model_name : string) (sample : option (list byte)) (w0 : World)
    : list verdict :=
  let a0 := mkApp None w0 in
  let '(v1, a1) := test_health model_name a0 in
  let '(v2, _) := test_transcribe model_name sample a1 in
  [v1; v2].

(** The same module on a client entered with [with TestClient(app)],
    which runs the startup hook first. *)
Definition run_test_module_started (model_name : string) (sample : option (list byte))
    (w0 : World) : list verdict :=
  let a0 := (startup_event model_name (mkApp None w0)).2 in
  let '(v1, a1) := test_health model_name a0 in
  let '(v2, _) := test_transcribe model_name sample a1 in
  [v1; v2].

(** ** Theorems *)

(** [test_health] passes in every state of the service, and the health
    check changes nothing. *)
Lemma test_health_passes model_name a :
  test_health model_name a = (Passed, a).
Proof. unfold test_health. by rewrite handle_health_eq. Qed.

(** C23: Whenever the service answers the sample upload with 200, the test
    fails: [data.text] raises [AttributeError] on the dictionary
    [r.json()] returns (or, without a ["text"] key, the assertion
    before it fails). *)
Theorem test_transcribe_fails_on_success model_name bytes a r a' :
  handle model_name (PostTranscribe (sample_upload bytes)) a = (Normal r, a') ->
  status r = 200%Z ->
  exists why, test_transcribe model_name (Some bytes) a = (Failed why, a') /\
    (py_contains "text" (body r) = true -> why = attribute_error).
Proof.
  intros Hh Hs. unfold test_transcribe. rewrite Hh, Hs. simpl.
  destruct (py_contains "text" (body r)); eexists; split; try done.
Qed.

(** C24: Without the startup hook the module passes whatever the sample is:
    the service is never ready, [POST /transcribe] answers 503, and the
    test accepts 503; transcription is never exercised. *)
Theorem tests_pass_without_startup model_name bytes w0 :
  run_test_module model_name (Some bytes) w0 = [Passed; Passed].
Proof.
  unfold run_test_module. rewrite test_health_passes.
  unfold test_transcribe. rewrite handle_transcribe_eq, transcribe_not_ready by done.
  reflexivity.
Qed.
End Tests.

(** ** Witnesses and runs on the toy backend *)

(** The response the toy service gives the test's upload. *)
Definition toy_sample_response : http_response :=
  match (handle "base" (PostTranscribe (sample_upload [x01])) (app_started "base")).1 with
  | Normal r => r
  | Raised _ => mk_response 0 PNone
  end.

Lemma test_transcribe_fails_on_success_witness :
  exists why, test_transcribe "base" (Some [x01]) (app_started "base") =
      (Failed why, (handle "base" (PostTranscribe (sample_upload [x01])) (app_started "base")).2) /\
    (py_contains "text" (body toy_sample_response) = true -> why = attribute_error).
Proof.
  apply (test_transcribe_fails_on_success "base" [x01] (app_started "base") toy_sample_response);
    vm_compute; reflexivity.
Defined.

(** With the startup hook run and a model that transcribes, the second
    test of the module fails with [AttributeError]. *)
Example tests_with_startup_fail :
  run_test_module_started (H := ToyBackend) "base" (Some [x01]) world0 =
    [Passed; Failed attribute_error].
Proof. vm_compute. reflexivity. Qed.
